(** * Bronze-layer ingestion notebook: a shallow embedding

    The notebook [01_Bronze_Layer_Data_Ingestion.py] declares four schemas,
    reads four CSV files against them, audits each frame
    ([data_quality_check]), adds two lineage columns, writes four Delta
    tables in overwrite mode (the sales table partitioned by
    [transaction_date]) and finally prints the row count of every table.

    The notebook is a client of the Spark, pandas and Delta APIs.  The
    fragment of those APIs that it calls is given a small semantics first:
    the frames, expressions and queries of Spark ([Module Spark]), the CSV
    reader ([Module Reader], its tokenizer and its converters being
    parameters), the arithmetic of pandas in binary64 ([Module Pandas]),
    and the writer and the catalog of Delta ([Module Delta]).  The cells of
    the notebook are then transcribed statement by statement on top of it
    ([Module Notebook]).  Queries are evaluated where they are written,
    the time of a query being an argument.  An exception is [None].  What
    the notebook only displays (the samples of step 8 and the sales
    aggregates of step 9) is left out. *)

From Stdlib Require Import ZArith Ascii String Floats Uint63.
From stdpp Require Import gmap strings list pretty.

Open Scope Z_scope.

(** ** Strings as Python and the analyzer use them *)

Module Str.

(** [str.lower()] on the ASCII range; the bytes of other characters are
    left as they are. *)
Definition lower_ascii (a : ascii) : ascii :=
  let n := nat_of_ascii a in
  if bool_decide (65 <= n <= 90)%nat then ascii_of_nat (n + 32) else a.

Fixpoint lower (s : string) : string :=
  match s with
  | EmptyString => EmptyString
  | String a s' => String (lower_ascii a) (lower s')
  end.

(** [sub in s] for two Python strings: [sub] occurs as a contiguous run
    of characters of [s]. *)
Fixpoint contains (sub s : string) : bool :=
  String.prefix sub s ||
  match s with
  | EmptyString => false
  | String _ s' => contains sub s'
  end.

End Str.

(** ** Spark SQL types, values and schemas *)

Inductive DataType :=
| StringType | IntegerType | LongType | DoubleType | DateType | BooleanType
| TimestampType.

Global Instance DataType_eq_dec : EqDecision DataType.
Proof. solve_decision. Defined.

Record StructField := mkField {
name : string;
dataType : DataType;
nullable : bool
}.

Global Instance StructField_eq_dec : EqDecision StructField.
Proof. solve_decision. Defined.

(** [StructType([...])]: the ordered list of its fields. *)
Abbreviation StructType := (list StructField).

Definition fieldNames (s : StructType) : list string := name <$> s.

Module Schemas.

Definition stores_schema : StructType := [
  mkField "store_id" StringType false;
  mkField "store_name" StringType true;
  mkField "city" StringType true;
  mkField "store_type" StringType true;
  mkField "size_category" StringType true;
  mkField "size_sqm" IntegerType true;
  mkField "opening_date" DateType true;
  mkField "is_active" BooleanType true
].

Definition products_schema : StructType := [
  mkField "product_id" StringType false;
  mkField "product_name" StringType true;
  mkField "brand" StringType true;
  mkField "category" StringType true;
  mkField "gender" StringType true;
  mkField "season" StringType true;
  mkField "price" DoubleType true;
  mkField "cost" DoubleType true;
  mkField "size_range" StringType true;
  mkField "color_options" IntegerType true;
  mkField "launch_date" DateType true;
  mkField "is_active" BooleanType true
].

Definition customers_schema : StructType := [
  mkField "customer_id" StringType false;
  mkField "first_name" StringType true;
  mkField "last_name" StringType true;
  mkField "email" StringType true;
  mkField "age" IntegerType true;
  mkField "gender" StringType true;
  mkField "city" StringType true;
  mkField "registration_date" DateType true;
  mkField "customer_segment" StringType true;
  mkField "loyalty_member" BooleanType true;
  mkField "is_active" BooleanType true
].

Definition sales_schema : StructType := [
  mkField "transaction_id" StringType false;
  mkField "transaction_date" DateType true;
  mkField "transaction_time" StringType true;
  mkField "store_id" StringType true;
  mkField "product_id" StringType true;
  mkField "customer_id" StringType true;
  mkField "quantity" IntegerType true;
  mkField "unit_price" DoubleType true;
  mkField "discount_percent" IntegerType true;
  mkField "discount_amount" DoubleType true;
  mkField "total_amount" DoubleType true;
  mkField "payment_method" StringType true;
  mkField "channel" StringType true
].

(** The four datasets of the notebook and the schema each is read
    with. *)
Inductive dataset := Stores | Products | Customers | Sales.

Definition schema_of (d : dataset) : StructType :=
  match d with
  | Stores => stores_schema
  | Products => products_schema
  | Customers => customers_schema
  | Sales => sales_schema
  end.

(** The column lists of the input contract (section 6 of the
    specification), written down independently of the schemas. *)
Definition contract_columns (d : dataset) : list string :=
  match d with
  | Stores =>
      ["store_id"; "store_name"; "city"; "store_type"; "size_category";
       "size_sqm"; "opening_date"; "is_active"]
  | Products =>
      ["product_id"; "product_name"; "brand"; "category"; "gender";
       "season"; "price"; "cost"; "size_range"; "color_options";
       "launch_date"; "is_active"]
  | Customers =>
      ["customer_id"; "first_name"; "last_name"; "email"; "age";
       "gender"; "city"; "registration_date"; "customer_segment";
       "loyalty_member"; "is_active"]
  | Sales =>
      ["transaction_id"; "transaction_date"; "transaction_time";
       "store_id"; "product_id"; "customer_id"; "quantity"; "unit_price";
       "discount_percent"; "discount_amount"; "total_amount";
       "payment_method"; "channel"]
  end.

Definition contract_width (d : dataset) : nat :=
  match d with
  | Stores => 8 | Products => 12 | Customers => 11 | Sales => 13
  end%nat.

End Schemas.

(** ** The fragment of the DataFrame API that the notebook calls *)

Module Spark.

(** Leibniz equality of binary64 numbers is decidable through the kernel's
    bitwise comparison. *)
Global Instance float_eq_dec : EqDecision float.
Proof.
  intros x y. destruct (PrimFloat.Leibniz.eqb x y) eqn:E; [left|right].
  - by apply FloatAxioms.Leibniz.eqb_spec.
  - intros H. apply FloatAxioms.Leibniz.eqb_spec in H. congruence.
Defined.

(** A non-null value of a column.  Dates are days and timestamps are
    microseconds since the epoch, as Spark stores them. *)
Inductive value :=
| VString (s : string)
| VInteger (z : Z)
| VLong (z : Z)
| VDouble (f : float)
| VDate (days : Z)
| VBoolean (b : bool)
| VTimestamp (micros : Z).

Global Instance value_eq_dec : EqDecision value.
Proof. solve_decision. Defined.

Definition valueType (v : value) : DataType :=
  match v with
  | VString _ => StringType
  | VInteger _ => IntegerType
  | VLong _ => LongType
  | VDouble _ => DoubleType
  | VDate _ => DateType
  | VBoolean _ => BooleanType
  | VTimestamp _ => TimestampType
  end.

(** A cell is a value or SQL [NULL] ([None]). *)
Abbreviation cell := (option value).
Abbreviation Row := (list cell).

Record DataFrame := mkDF {
  schema : StructType;
  rows : list Row
}.

(** [df.columns] *)
Definition columns (df : DataFrame) : list string := fieldNames (schema df).

(** [df.count()] *)
Definition count (df : DataFrame) : Z := Z.of_nat (length (rows df)).

(** The invariants of a frame: at least one column, no two columns with
    the same name (the analyzer compares names without regard to case, so
    neither may two names differ by case only), and one cell per column
    in every row. *)
Record wf_df (df : DataFrame) : Prop := {
  wf_columns : schema df ≠ [];
  wf_names : NoDup (Str.lower <$> columns df);
  wf_rows : Forall (λ r : Row, length r = length (schema df)) (rows df)
}.

(** Name resolution ([spark.sql.caseSensitive] has its default, false):
    the position of the one column called [c]; no column or more than one
    is an analysis error. *)
Definition resolve (cols : list string) (c : string) : option nat :=
  match list_find (λ x, Str.lower x = Str.lower c) cols with
  | Some (i, _) =>
      if decide (Str.lower c ∈ Str.lower <$> drop (S i) cols)
      then None else Some i
  | None => None
  end.

(** Column expressions. *)
Inductive Column :=
| col (c : string)
| lit (v : value)
| isNull (e : Column)
| when (cond : Column) (v : Column)
| current_timestamp.

(** The analyzer: the type of an expression over a schema, or an
    error. *)
Fixpoint typeOf (s : StructType) (e : Column) : option DataType :=
  match e with
  | col c => i ← resolve (fieldNames s) c; dataType <$> s !! i
  | lit v => Some (valueType v)
  | isNull e' => _ ← typeOf s e'; Some BooleanType
  | when c v =>
      t ← typeOf s c;
      if decide (t = BooleanType) then typeOf s v else None
  | current_timestamp => Some TimestampType
  end.

(** Whether the analyzer marks the result of an expression nullable. *)
Definition nullableOf (s : StructType) (e : Column) : bool :=
  match e with
  | col c =>
      default true (i ← resolve (fieldNames s) c; nullable <$> s !! i)
  | lit _ => false
  | isNull _ => false
  | when _ _ => true
  | current_timestamp => false
  end.

(** Evaluation of an analyzed expression on one row.  [now] is the
    timestamp of the running query: [current_timestamp()] is fixed at the
    start of query evaluation and is the same for every row of it.
    [when] without [otherwise] is null where the condition is not true. *)
Fixpoint eval (now : Z) (s : StructType) (r : Row) (e : Column) : cell :=
  match e with
  | col c => i ← resolve (fieldNames s) c; mjoin (r !! i)
  | lit v => Some v
  | isNull e' => Some (VBoolean (bool_decide (eval now s r e' = None)))
  | when c v =>
      match eval now s r c with
      | Some (VBoolean true) => eval now s r v
      | _ => None
      end
  | current_timestamp => Some (VTimestamp now)
  end.

(** The aggregate [count(e)]: the number of rows on which [e] is not
    null. *)
Definition agg_count (now : Z) (df : DataFrame) (e : Column) : Z :=
  Z.of_nat (length (filter (λ r, is_Some (eval now (schema df) r e)) (rows df))).

(** [df.select(c)] for one column name. *)
Definition select (c : string) (df : DataFrame) : option DataFrame :=
  i ← resolve (columns df) c;
  f ← schema df !! i;
  Some (mkDF [f] ((λ r, [mjoin (r !! i)]) <$> rows df)).

(** Grouping compares doubles after normalisation: negative zero is
    positive zero (and there is one NaN, as in [float]). *)
Definition normalize (c : cell) : cell :=
  match c with
  | Some (VDouble f) => Some (VDouble (if PrimFloat.eqb f 0 then 0%float else f))
  | _ => c
  end.

(** [df.distinct()]: one row for every class of equal rows; nulls are
    equal to each other. *)
Definition distinct (df : DataFrame) : DataFrame :=
  mkDF (schema df) (remove_dups ((λ r : Row, normalize <$> r) <$> rows df)).

(** [df.withColumn(name, e)]: the column is appended, or replaces the
    columns of that name when there are any. *)
Definition withColumn (now : Z) (c : string) (e : Column) (df : DataFrame)
  : option DataFrame :=
  t ← typeOf (schema df) e;
  let f := mkField c t (nullableOf (schema df) e) in
  let hit (x : StructField) := bool_decide (Str.lower (name x) = Str.lower c) in
  if bool_decide (Str.lower c ∈ Str.lower <$> columns df)
  then Some (mkDF ((λ x, if hit x then f else x) <$> schema df)
               ((λ r, (λ p, if hit p.1 then eval now (schema df) r e else p.2)
                        <$> zip (schema df) r) <$> rows df))
  else Some (mkDF (schema df ++ [f])
               ((λ r, r ++ [eval now (schema df) r e]) <$> rows df)).

End Spark.

(** ** The fragment of the CSV reader that the notebook calls *)

Module Reader.
Import Spark.

(** The files of DBFS: the lines of every file, by path. *)
Abbreviation dbfs := (gmap string (list string)).

(** [spark.read] and its builder methods. *)
Record DataFrameReader := mkReader {
  r_options : list (string * string)
}.

Definition read : DataFrameReader := mkReader [].

(** [.option(k, v)] *)
Definition set_option (k v : string) (r : DataFrameReader) : DataFrameReader :=
  mkReader ((k, v) :: r_options r).

(** A reader that has been given a schema: [.schema(s)]. *)
Record SchemaReader := mkSchemaReader {
  sr_options : list (string * string);
  sr_schema : StructType
}.

Definition with_schema (s : StructType) (r : DataFrameReader) : SchemaReader :=
  mkSchemaReader (r_options r) s.

(** The last value given for an option, keys without regard to case. *)
Definition get_option (k : string) (opts : list (string * string))
  : option string :=
  (λ p, p.2.2) <$> list_find (λ p, Str.lower p.1 = Str.lower k) opts.

(** The option [header]: false unless given; a value that is neither
    true nor false is an error. *)
Definition header_of (opts : list (string * string)) : option bool :=
  match Str.lower <$> get_option "header" opts with
  | None => Some false
  | Some v =>
      if decide (v = "true") then Some true
      else if decide (v = "false") then Some false
      else None
  end.

(** The option [mode]: what happens to a record that does not fit the
    schema.  The mode is [PERMISSIVE] unless another one is given. *)
Inductive ParseMode := PERMISSIVE | DROPMALFORMED | FAILFAST.

Definition mode_of (opts : list (string * string)) : ParseMode :=
  match Str.lower <$> get_option "mode" opts with
  | None => PERMISSIVE
  | Some v =>
      if decide (v = "dropmalformed") then DROPMALFORMED
      else if decide (v = "failfast") then FAILFAST
      else PERMISSIVE
  end.

(** A line that is empty once trimmed: no character above the space. *)
Fixpoint is_blank (line : string) : bool :=
  match line with
  | EmptyString => true
  | String a line' => bool_decide (nat_of_ascii a ≤ 32)%nat && is_blank line'
  end.

(** The records of a file: its lines that are not blank, without the
    first of them when the file has a header. *)
Definition records (header : bool) (lines : list string) : list string :=
  let kept := filter (λ line, is_blank line = false) lines in
  if header then tail kept else kept.

(** The schema of a frame read from files: every field is nullable. *)
Definition asNullable (s : StructType) : StructType :=
  (λ f, mkField (name f) (dataType f) true) <$> s.

(** What becomes of one record. *)
Inductive outcome := Parsed (r : Row) | Dropped | Failed.

Section Csv.

(** The tokenizer, which splits a record into its fields, and the
    converters of the field types are those of the data source: [convert
    t tok] is [None] when the token cannot be read as a [t], and
    [Some None] when it stands for null. *)
Variable tokenize : string → list string.
Variable convert : DataType → string → option cell.

(** The fields of a record, by position in the schema: the token of a
    field converted to its type, or [None] when the token is missing or
    cannot be converted. *)
Definition convert_record (s : StructType) (line : string)
  : list (option cell) :=
  imap (λ i f, tokenize line !! i ≫= convert (dataType f)) s.

(** A record fits the schema when it has one token per field and every
    token converts.  One that does not is kept with nulls in the place of
    what is missing or cannot be converted ([PERMISSIVE]), left out
    ([DROPMALFORMED]), or fails the read ([FAILFAST]). *)
Definition parse_record (m : ParseMode) (s : StructType) (line : string)
  : outcome :=
  let cells := convert_record s line in
  let r : Row := (λ c : option cell, mjoin c) <$> cells in
  if bool_decide (length (tokenize line) = length s ∧ Forall is_Some cells)
  then Parsed r
  else match m with
       | PERMISSIVE => Parsed r
       | DROPMALFORMED => Dropped
       | FAILFAST => Failed
       end.

Fixpoint parse_records (m : ParseMode) (s : StructType) (lines : list string)
  : option (list Row) :=
  match lines with
  | [] => Some []
  | line :: lines' =>
      match parse_record m s line with
      | Parsed r => (λ rs, r :: rs) <$> parse_records m s lines'
      | Dropped => parse_records m s lines'
      | Failed => None
      end
  end.

(** [.csv(path)] *)
Definition csv (path : string) (r : SchemaReader) (fs : dbfs)
  : option DataFrame :=
  lines ← fs !! path;
  header ← header_of (sr_options r);
  rs ← parse_records (mode_of (sr_options r)) (sr_schema r)
         (records header lines);
  Some (mkDF (asNullable (sr_schema r)) rs).

End Csv.

End Reader.

(** ** The fragment of pandas and NumPy that the notebook calls *)

Module Pandas.

(** An [int64] as a [float64]; counts are below [2^63]. *)
Definition of_int64 (z : Z) : float := PrimFloat.of_uint63 (Uint63.of_Z z).

Definition two52 : float := 4503599627370496%float.

(** [numpy.rint]: the nearest integer, ties to even.  Below [2^52] in
    magnitude, adding and subtracting [2^52] rounds to an integer in the
    default rounding mode; from [2^52] on every double is an integer. *)
Definition rint (x : float) : float :=
  if PrimFloat.is_nan x then x
  else if PrimFloat.ltb (PrimFloat.abs x) two52 then
    let r := (PrimFloat.abs x + two52 - two52)%float in
    if PrimFloat.get_sign x then PrimFloat.opp r else r
  else x.

(** [Series.round(2)], which is [numpy.round(_, 2)]: scale by [10^2],
    [rint], scale back. *)
Definition round2 (x : float) : float := (rint (x * 100) / 100)%float.

(** [Series / n] for an [int64] series and a Python [int]: true division
    in [float64]; a zero divisor gives [nan] or an infinity, no
    exception. *)
Definition truediv (x n : Z) : float := (of_int64 x / of_int64 n)%float.

(** [.loc[label]] on a frame indexed by labels. *)
Definition loc {A} (label : string) (frame : list (string * A)) : option A :=
  (list_to_map frame : gmap string A) !! label.

End Pandas.

(** ** The fragment of the Delta writer and of the catalog *)

Module Delta.
Import Spark.

(** One version of a table: its schema, its partition columns and its
    data files grouped by directory, one directory for every combination
    of partition values. *)
Record Snapshot := mkSnapshot {
  snap_schema : StructType;
  partitionColumns : list string;
  files : list (list cell * list Row)
}.

(** A table is its readable version and the earlier ones, kept by the
    transaction log. *)
Record Table := mkTable {
  current : Snapshot;
  history : list Snapshot
}.

Abbreviation catalog := (gmap string Table).

Inductive SaveMode := Append | Overwrite | ErrorIfExists | Ignore.

Definition parse_mode (m : string) : option SaveMode :=
  let m := Str.lower m in
  if decide (m = "overwrite") then Some Overwrite
  else if decide (m = "append") then Some Append
  else if decide (m = "ignore") then Some Ignore
  else if decide (m = "error" ∨ m = "errorifexists" ∨ m = "default")
  then Some ErrorIfExists
  else None.

(** [df.write] and its builder methods. *)
Record DataFrameWriter := mkWriter {
  w_df : DataFrame;
  w_format : string;
  w_mode : string;
  w_options : list (string * string);
  w_partitionBy : list string
}.

Definition write (df : DataFrame) : DataFrameWriter :=
  mkWriter df "delta" "errorifexists" [] [].

Definition format (f : string) (w : DataFrameWriter) : DataFrameWriter :=
  mkWriter (w_df w) f (w_mode w) (w_options w) (w_partitionBy w).

Definition mode (m : string) (w : DataFrameWriter) : DataFrameWriter :=
  mkWriter (w_df w) (w_format w) m (w_options w) (w_partitionBy w).

(** [.option(k, v)] *)
Definition set_option (k v : string) (w : DataFrameWriter) : DataFrameWriter :=
  mkWriter (w_df w) (w_format w) (w_mode w) ((k, v) :: w_options w)
    (w_partitionBy w).

Definition partitionBy (c : string) (w : DataFrameWriter) : DataFrameWriter :=
  mkWriter (w_df w) (w_format w) (w_mode w) (w_options w) [c].

(** The last value given for an option, keys without regard to case. *)
Definition get_option (k : string) (w : DataFrameWriter) : option string :=
  (λ p, p.2.2) <$> list_find (λ p, Str.lower p.1 = Str.lower k) (w_options w).

(** The partition values of a row. *)
Definition partition_key (idx : list nat) (r : Row) : list cell :=
  (λ i, mjoin (r !! i)) <$> idx.

(** The directories written for a frame: one for every distinct
    combination of partition values that occurs, holding the rows that
    have it. *)
Definition layout (idx : list nat) (rs : list Row)
  : list (list cell * list Row) :=
  (λ k, (k, filter (λ r, partition_key idx r = k) rs))
    <$> remove_dups (partition_key idx <$> rs).

(** The characters that the writer refuses in a column name. *)
Definition invalid_chars : list ascii :=
  [" "; ","; ";"; "{"; "}"; "("; ")"; "="; "010"; "009"]%char.

Fixpoint valid_name (c : string) : bool :=
  match c with
  | EmptyString => true
  | String a c' => negb (bool_decide (a ∈ invalid_chars)) && valid_name c'
  end.

(** The checks of the writer on the frame: some column, no two columns
    of the same name, no refused character in a name, and a column left
    over beside the partition columns. *)
Definition writable (df : DataFrame) (partition_by : list string) : bool :=
  bool_decide (schema df ≠ [])
  && bool_decide (NoDup (Str.lower <$> columns df))
  && forallb valid_name (columns df)
  && bool_decide (length partition_by < length (schema df))%nat.

Definition snapshot_of (w : DataFrameWriter) : option Snapshot :=
  let df := w_df w in
  if writable df (w_partitionBy w) then
    idx ← mapM (resolve (columns df)) (w_partitionBy w);
    Some (mkSnapshot (schema df) (w_partitionBy w) (layout idx (rows df)))
  else None.

(** The versions of a table that the next overwrite moves to the
    history. *)
Definition superseded (tbl : string) (cat : catalog) : list Snapshot :=
  match cat !! tbl with
  | Some t => current t :: history t
  | None => []
  end.

(** [saveAsTable(name)].  A new table always gets the frame as its first
    version.  On an existing table, [overwrite] makes the frame the
    readable version and moves the old one to the history (the schema or
    the partitioning may change only with [overwriteSchema]); [append]
    adds the frame's files to the readable ones; [ignore] does nothing;
    [errorifexists] raises. *)
Definition saveAsTable (tbl : string) (w : DataFrameWriter) (cat : catalog)
  : option catalog :=
  new ← snapshot_of w;
  m ← parse_mode (w_mode w);
  match cat !! tbl with
  | None => Some (<[tbl := mkTable new []]> cat)
  | Some t =>
      let old := current t in
      let same_shape :=
        bool_decide (snap_schema old = snap_schema new
                     ∧ partitionColumns old = partitionColumns new) in
      match m with
      | Overwrite =>
          if same_shape
             || bool_decide (Str.lower <$> get_option "overwriteSchema" w
                             = Some "true")
          then Some (<[tbl := mkTable new (old :: history t)]> cat)
          else None
      | Append =>
          if same_shape
          then Some (<[tbl := mkTable
                        (mkSnapshot (snap_schema old) (partitionColumns old)
                           (files old ++ files new))
                        (old :: history t)]> cat)
          else None
      | Ignore => Some cat
      | ErrorIfExists => None
      end
  end.

(** The rows a query reads from a table: those of the files of the
    readable version. *)
Definition table (tbl : string) (cat : catalog) : option DataFrame :=
  t ← cat !! tbl;
  Some (mkDF (snap_schema (current t)) (concat (snd <$> files (current t)))).

(** [spark.sql("SELECT COUNT(*) as cnt FROM tbl").collect()[0]['cnt']] *)
Definition sql_count_star (tbl : string) (cat : catalog) : option Z :=
  count <$> table tbl cat.

End Delta.

(** ** The notebook *)

Module Notebook.
Import Spark Delta.

(** *** Steps 2 to 4: paths, schemas, reads *)

Definition stores_csv_path : string := "dbfs:/FileStore/tables/stores.csv".

(** [spark.read.option("header", "true").option("inferSchema", "false")
       .schema(s).csv(path)] *)
Definition read_csv (tokenize : string → list string)
    (convert : DataType → string → option cell)
    (path : string) (s : StructType) (fs : Reader.dbfs) : option DataFrame :=
  Reader.csv tokenize convert path
    (Reader.with_schema s
       (Reader.set_option "inferSchema" "false"
          (Reader.set_option "header" "true" Reader.read))) fs.

(** *** Step 5: data quality checks *)

(** One row of [null_df]: the columns ['Null Count'] and ['Null %']. *)
Record NullRow := mkNullRow {
  Null_Count : Z;
  Null_pct : float
}.

Global Instance NullRow_eq_dec : EqDecision NullRow.
Proof. solve_decision. Defined.

(** What one call of [data_quality_check] computes and prints: the total,
    the frame [null_df] indexed by column name, the part of it that is
    printed (the rows with a positive count), and the lines printed for
    the key columns. *)
Record QualityReport := mkReport {
  total_rows : Z;
  null_df : list (string * NullRow);
  printed_nulls : list (string * NullRow);
  distinct_counts : list (string * Z)
}.

(** [count(when(col(c).isNull(), c))]: [when] takes the string [c] as a
    literal. *)
Definition null_marker (c : string) : Column :=
  when (isNull (col c)) (lit (VString c)).

(** [df.select([count(when(col(c).isNull(), c)).alias(c) for c in
    df.columns]).toPandas().T], with its one column named
    ['Null Count']. *)
Definition null_counts (now : Z) (df : DataFrame) : option (list (string * Z)) :=
  _ ← mapM (λ c, typeOf (schema df) (null_marker c)) (columns df);
  Some ((λ c, (c, agg_count now df (null_marker c))) <$> columns df).

(** [(null_df['Null Count'] / total_rows * 100).round(2)] *)
Definition null_percent (null_count total_rows : Z) : float :=
  Pandas.round2 (Pandas.truediv null_count total_rows * 100)%float.

(** ['store_id' in df.columns or 'product_id' in df.columns or
    'customer_id' in df.columns] *)
Definition has_key_column (df : DataFrame) : bool :=
  bool_decide ("store_id" ∈ columns df)
  || bool_decide ("product_id" ∈ columns df)
  || bool_decide ("customer_id" ∈ columns df).

(** ['id' in col_name.lower()] *)
Definition id_like (col_name : string) : bool :=
  Str.contains "id" (Str.lower col_name).

(** [df.select(col_name).distinct().count()] *)
Definition distinct_count (df : DataFrame) (col_name : string) : option Z :=
  d ← select col_name df; Some (count (distinct d)).

Definition key_column_report (df : DataFrame) : option (list (string * Z)) :=
  if has_key_column df then
    mapM (λ col_name, n ← distinct_count df col_name; Some (col_name, n))
         (filter (λ col_name, id_like col_name) (columns df))
  else Some [].

(** [data_quality_check(df, table_name)]: the report it prints and the
    value it returns, which is always [True]. *)
Definition data_quality_check (now : Z) (df : DataFrame) (table_name : string)
  : option (QualityReport * bool) :=
  let total_rows := count df in
  counts ← null_counts now df;
  let null_df :=
    (λ p, (p.1, mkNullRow p.2 (null_percent p.2 total_rows))) <$> counts in
  let printed := filter (λ p, 0 < Null_Count p.2) null_df in
  keys ← key_column_report df;
  Some (mkReport total_rows null_df printed keys, true).

(** *** Step 6: metadata columns *)

(** The two [withColumn] calls that every raw frame goes through, with
    the name of its source file. *)
Definition enrich (now : Z) (source_file : string) (raw : DataFrame)
  : option DataFrame :=
  df ← withColumn now "ingestion_timestamp" current_timestamp raw;
  withColumn now "source_file" (lit (VString source_file)) df.

Definition df_stores (now : Z) (df_stores_raw : DataFrame) :=
  enrich now "stores.csv" df_stores_raw.
Definition df_products (now : Z) (df_products_raw : DataFrame) :=
  enrich now "products.csv" df_products_raw.
Definition df_customers (now : Z) (df_customers_raw : DataFrame) :=
  enrich now "customers.csv" df_customers_raw.
Definition df_sales (now : Z) (df_sales_raw : DataFrame) :=
  enrich now "sales.csv" df_sales_raw.

(** *** Step 7: write to Delta *)

(** [df.write.format("delta").mode("overwrite")
       .option("overwriteSchema", "true").saveAsTable(tbl)] *)
Definition write_table (tbl : string) (df : DataFrame) (cat : catalog)
  : option catalog :=
  saveAsTable tbl
    (set_option "overwriteSchema" "true"
       (mode "overwrite" (format "delta" (write df)))) cat.

(** The same with [.partitionBy("transaction_date")] before
    [saveAsTable]. *)
Definition write_sales (tbl : string) (df : DataFrame) (cat : catalog)
  : option catalog :=
  saveAsTable tbl
    (partitionBy "transaction_date"
       (set_option "overwriteSchema" "true"
          (mode "overwrite" (format "delta" (write df))))) cat.

(** *** Step 9: summary *)

(** The four counts that the summary prints. *)
Record RecordCounts := mkCounts {
  stores_count : Z;
  products_count : Z;
  customers_count : Z;
  sales_count : Z
}.

Definition record_counts (cat : catalog) : option RecordCounts :=
  stores ← sql_count_star "bronze_stores" cat;
  products ← sql_count_star "bronze_products" cat;
  customers ← sql_count_star "bronze_customers" cat;
  sales ← sql_count_star "bronze_sales" cat;
  Some (mkCounts stores products customers sales).

(** *** The cells in order *)

Record RawFrames := mkRaw {
  df_stores_raw : DataFrame;
  df_products_raw : DataFrame;
  df_customers_raw : DataFrame;
  df_sales_raw : DataFrame
}.

(** Steps 5 to 9 for frames already read.  Every write is a query of its
    own, evaluated at its own time. *)
Definition run (t_audit t_stores t_products t_customers t_sales : Z)
    (raw : RawFrames) (cat : catalog)
  : option (list (QualityReport * bool) * RecordCounts * catalog) :=
  q1 ← data_quality_check t_audit (df_stores_raw raw) "Stores";
  q2 ← data_quality_check t_audit (df_products_raw raw) "Products";
  q3 ← data_quality_check t_audit (df_customers_raw raw) "Customers";
  q4 ← data_quality_check t_audit (df_sales_raw raw) "Sales";
  stores ← df_stores t_stores (df_stores_raw raw);
  cat ← write_table "bronze_stores" stores cat;
  products ← df_products t_products (df_products_raw raw);
  cat ← write_table "bronze_products" products cat;
  customers ← df_customers t_customers (df_customers_raw raw);
  cat ← write_table "bronze_customers" customers cat;
  sales ← df_sales t_sales (df_sales_raw raw);
  cat ← write_sales "bronze_sales" sales cat;
  counts ← record_counts cat;
  Some ([q1; q2; q3; q4], counts, cat).


End Notebook.

(** ** Notions of the specification *)

Module Contract.
Import Spark.


(** The content of column [i], row by row. *)
Definition column_cells (i : nat) (df : DataFrame) : list cell :=
  (λ r : Row, mjoin (r !! i)) <$> rows df.

(** The number of null cells of column [i]. *)
Definition nulls_in_column (i : nat) (df : DataFrame) : nat :=
  length (filter (λ x : cell, x = None) (column_cells i df)).

(** [n] is the number of distinct contents among [cells]: there is a
    duplicate-free list of representatives that covers them and has
    length [n].  Contents are compared the way grouping compares them,
    and the null cell is one content. *)
Definition number_of_distinct (cells : list cell) (n : Z) : Prop :=
  ∃ reps : list cell,
    NoDup reps ∧ (∀ x, x ∈ reps ↔ x ∈ normalize <$> cells)
    ∧ n = Z.of_nat (length reps).

(** The two fields of an enriched row and their content for a query
    evaluated at [now] on the file [source_file]. *)
Definition metadata_fields : StructType :=
  [mkField "ingestion_timestamp" TimestampType false;
   mkField "source_file" StringType false].

Definition metadata_cells (now : Z) (source_file : string) : Row :=
  [Some (VTimestamp now); Some (VString source_file)].

End Contract.

(** ** Sample frames *)

Module Samples.
Import Spark.

(** Three stores, the second with an empty [size_sqm] field. *)
Definition three_stores : DataFrame :=
  mkDF Schemas.stores_schema [
    [Some (VString "ST0001"); Some (VString "Deichmann Berlin");
     Some (VString "Berlin"); Some (VString "Outlet");
     Some (VString "Small"); Some (VInteger 150); Some (VDate 14610);
     Some (VBoolean true)];
    [Some (VString "ST0002"); Some (VString "Deichmann Bonn");
     Some (VString "Bonn"); Some (VString "Flagship Store");
     Some (VString "Large"); None; Some (VDate 15000);
     Some (VBoolean true)];
    [Some (VString "ST0003"); Some (VString "Deichmann Kiel");
     Some (VString "Kiel"); Some (VString "City Center");
     Some (VString "Medium"); Some (VInteger 300); Some (VDate 16000);
     Some (VBoolean false)]
  ].



(** The same values under the name [store_id]. *)
Definition store_ids : DataFrame :=
  mkDF [mkField "store_id" StringType false]
    [[Some (VString "A")]; [Some (VString "A")]; [Some (VString "B")];
     [Some (VString "C")]].

Definition sale (id : string) (day : Z) (amount : float) : Row :=
  [Some (VString id); Some (VDate day); Some (VString "10:15:00");
   Some (VString "ST0001"); Some (VString "PRD00001");
   Some (VString "ANONYMOUS"); Some (VInteger 1); Some (VDouble amount);
   Some (VInteger 0); Some (VDouble 0); Some (VDouble amount);
   Some (VString "Cash"); Some (VString "In-Store")].

(** Three sales on 2023-01-01 and 2023-01-02 (days 19358 and 19359 since
    the epoch). *)
Definition two_days_of_sales : DataFrame :=
  mkDF Schemas.sales_schema
    [sale "TXN00000001" 19358 10; sale "TXN00000002" 19359 30;
     sale "TXN00000003" 19358 20].

(** The three stores after enrichment by a query evaluated at time 1. *)
Definition enriched_three_stores : DataFrame :=
  mkDF (Schemas.stores_schema ++ Contract.metadata_fields)
    ((λ r, r ++ Contract.metadata_cells 1 "stores.csv") <$> rows three_stores).

(** A tokenizer and converters to run the reader with: fields are
    separated by commas, without quoting; strings are taken as they are,
    integers are decimal digits, booleans are [true] and [false] in any
    case, dates are [YYYY-MM-DD]; the empty token is null; the other types
    are not read. *)
Fixpoint split_commas (line : string) : list string :=
  match line with
  | EmptyString => [EmptyString]
  | String a rest =>
      let toks := split_commas rest in
      if decide (a = ","%char) then EmptyString :: toks
      else match toks with
           | t :: ts => String a t :: ts
           | [] => [String a EmptyString]
           end
  end.

Fixpoint digits (acc : Z) (tok : string) : option Z :=
  match tok with
  | EmptyString => Some acc
  | String a tok' =>
      let n := nat_of_ascii a in
      if bool_decide (48 ≤ n ≤ 57)%nat
      then digits (10 * acc + Z.of_nat (n - 48)) tok'
      else None
  end.

Definition number (tok : string) : option Z :=
  if decide (tok = "") then None else digits 0 tok.

(** The days from 1970-01-01 to a date of the proleptic Gregorian
    calendar. *)
Definition days_from_civil (y m d : Z) : Z :=
  let y := if m <=? 2 then y - 1 else y in
  let era := y / 400 in
  let yoe := y - era * 400 in
  let doy := (153 * (if 2 <? m then m - 3 else m + 9) + 2) / 5 + d - 1 in
  let doe := yoe * 365 + yoe / 4 - yoe / 100 + doy in
  era * 146097 + doe - 719468.

Definition date (tok : string) : option Z :=
  if bool_decide (String.length tok = 10%nat
                  ∧ String.substring 4 1 tok = "-"
                  ∧ String.substring 7 1 tok = "-")
  then
    y ← number (String.substring 0 4 tok);
    m ← number (String.substring 5 2 tok);
    d ← number (String.substring 8 2 tok);
    if bool_decide (1 ≤ m ≤ 12 ∧ 1 ≤ d ≤ 31)
    then Some (days_from_civil y m d) else None
  else None.

Definition plain_convert (t : DataType) (tok : string) : option cell :=
  if decide (tok = "") then Some None
  else match t with
       | StringType => Some (Some (VString tok))
       | IntegerType => (λ n, Some (VInteger n)) <$> number tok
       | DateType => (λ n, Some (VDate n)) <$> date tok
       | BooleanType =>
           if decide (Str.lower tok = "true") then Some (Some (VBoolean true))
           else if decide (Str.lower tok = "false")
           then Some (Some (VBoolean false))
           else None
       | _ => None
       end.

(** A stores file: the header, a complete record, a blank line, a record
    with an empty [size_sqm] and a date that is none, and a record that
    stops after the city. *)
Definition stores_csv : list string := [
  "store_id,store_name,city,store_type,size_category,size_sqm,opening_date,is_active";
  "ST0001,Deichmann Berlin,Berlin,Outlet,Small,150,2023-01-01,True";
  "";
  "ST0002,Deichmann Bonn,Bonn,Flagship Store,Large,,01.02.2023,True";
  "ST0003,Deichmann Kiel,Kiel"
].

Definition stores_only : Reader.dbfs :=
  {[ "dbfs:/FileStore/tables/stores.csv" := stores_csv ]}.




End Samples.

(** ** The data generator *)

(** The script [1_data_generator.py] draws its data from the random
    generators of Python and NumPy.  A draw is an argument here: a call
    that picks below a bound takes a natural number and reduces it below
    the bound, so that every outcome of the call is the value at some
    argument.  An [IndexError] or a [KeyError] is [None]. *)

Module Generator.

(** *** Python values *)

(** [str(n)] for a natural number. *)
Definition str (n : nat) : string := pretty n.

Fixpoint zeros (n : nat) : string :=
  match n with
  | O => EmptyString
  | S n' => String "0" (zeros n')
  end.

(** [s.zfill(width)] for a string of digits. *)
Definition zfill (width : nat) (s : string) : string :=
  (zeros (width - String.length s) +:+ s)%string.

(** [random.choice(seq)] and [random.choices(seq, weights)[0]] for
    positive weights: the element at a position below the length; there
    is none in an empty sequence. *)
Definition choice {A} (seq : list A) (u : nat) : option A :=
  seq !! (u mod length seq)%nat.

(** [random.randint(a, b)] for [a <= b]: a number from [a] to [b]. *)
Definition randint (a b : Z) (u : nat) : Z := a + Z.of_nat u mod (b - a + 1).

(** *** Dates *)

(** The date that is [z] days after 1970-01-01, as year, month and day. *)
Definition civil_from_days (z : Z) : Z * Z * Z :=
  let z := z + 719468 in
  let era := z / 146097 in
  let doe := z - era * 146097 in
  let yoe := (doe - doe / 1460 + doe / 36524 - doe / 146096) / 365 in
  let doy := doe - (365 * yoe + yoe / 4 - yoe / 100) in
  let mp := (5 * doy + 2) / 153 in
  let d := doy - (153 * mp + 2) / 5 + 1 in
  let m := if mp <? 10 then mp + 3 else mp - 9 in
  ((if m <=? 2 then yoe + era * 400 + 1 else yoe + era * 400), m, d).

(** [datetime(y, m, d)], as the number of days since 1970-01-01. *)
Definition datetime (y m d : Z) : Z := Samples.days_from_civil y m d.

(** [day.month] *)
Definition month (day : Z) : Z := (civil_from_days day).1.2.

(** [day.weekday()]: Monday is 0 and Sunday is 6; 1970-01-01 was a
    Thursday. *)
Definition weekday (day : Z) : Z := (day + 3) mod 7.

(** [day.strftime('%Y-%m-%d')] for a year of four digits. *)
Definition strftime (day : Z) : string :=
  let '(y, m, d) := civil_from_days day in
  (zfill 4 (str (Z.to_nat y)) +:+ "-" +:+ zfill 2 (str (Z.to_nat m))
   +:+ "-" +:+ zfill 2 (str (Z.to_nat d)))%string.

(** *** Stores *)

Definition store_cities : list string := [
  "Berlin"; "Hamburg"; "München"; "Köln"; "Frankfurt";
  "Stuttgart"; "Düsseldorf"; "Dortmund"; "Essen"; "Leipzig";
  "Bremen"; "Dresden"; "Hannover"; "Nürnberg"; "Duisburg";
  "Bochum"; "Wuppertal"; "Bielefeld"; "Bonn"; "Münster";
  "Karlsruhe"; "Mannheim"; "Augsburg"; "Wiesbaden"; "Gelsenkirchen";
  "Mönchengladbach"; "Braunschweig"; "Chemnitz"; "Kiel"; "Aachen"
].

Definition store_types : list string :=
  ["City Center"; "Shopping Mall"; "Outlet"; "Flagship Store"].

Definition store_sizes : list string :=
  ["Small"; "Medium"; "Large"; "Extra Large"].

Record Store := mkStore {
  st_store_id : string;
  st_store_name : string;
  st_city : string;
  st_store_type : string;
  st_size_category : string;
  st_size_sqm : Z;
  st_opening_date : string;
  st_is_active : bool
}.

(** The draws of one turn of the stores loop, in the order of the
    calls. *)
Record StoreDraws := mkStoreDraws {
  sd_city : nat;
  sd_store_type : nat;
  sd_size : nat;
  sd_small : nat;
  sd_medium : nat;
  sd_large : nat;
  sd_extra_large : nat;
  sd_opening : nat;
  sd_is_active : nat
}.

(** [f"ST{str(i+1).zfill(4)}"] *)
Definition store_id (i : nat) : string := ("ST" +:+ zfill 4 (str (i + 1)))%string.

(** [d[key]] for a dictionary given by its items. *)
Definition getitem {A} (d : list (string * A)) (key : string) : option A :=
  (λ p, p.2.2) <$> list_find (λ p, p.1 = key) d.

(** One turn of the loop [for i in range(50)]. *)
Definition store (i : nat) (draws : StoreDraws) : option Store :=
  city ← choice store_cities (sd_city draws);
  store_type ← choice store_types (sd_store_type draws);
  size ← choice store_sizes (sd_size draws);
  let size_mapping := [
    ("Small", randint 100 200 (sd_small draws));
    ("Medium", randint 201 400 (sd_medium draws));
    ("Large", randint 401 600 (sd_large draws));
    ("Extra Large", randint 601 1000 (sd_extra_large draws))
  ] in
  let opening_date := datetime 2010 1 1 + randint 0 4000 (sd_opening draws) in
  size_sqm ← getitem size_mapping size;
  is_active ← choice [true; true; true; false] (sd_is_active draws);
  Some (mkStore (store_id i) ("Deichmann " +:+ city) city store_type size
          size_sqm (strftime opening_date) is_active).

(** *** Customers *)

Definition first_names : list string := [
  "Anna"; "Ben"; "Clara"; "David"; "Emma"; "Felix"; "Greta"; "Hans";
  "Ida"; "Jonas"; "Klara"; "Leon"; "Maria"; "Noah"; "Olivia"; "Paul";
  "Sophie"; "Tim"; "Laura"; "Max"
].

Definition last_names : list string := [
  "Müller"; "Schmidt"; "Schneider"; "Fischer"; "Weber"; "Meyer";
  "Wagner"; "Becker"; "Schulz"; "Hoffmann"; "Koch"; "Bauer"
].

Record Customer := mkCustomer {
  cu_customer_id : string;
  cu_first_name : string;
  cu_last_name : string;
  cu_email : string;
  cu_age : Z;
  cu_gender : string;
  cu_city : string;
  cu_registration_date : string;
  cu_customer_segment : string;
  cu_loyalty_member : bool;
  cu_is_active : bool
}.

(** The draws of one turn of the customers loop; [cd_age] is
    [int(np.random.normal(35, 15))]. *)
Record CustomerDraws := mkCustomerDraws {
  cd_age : Z;
  cd_registration : nat;
  cd_first_name : nat;
  cd_last_name : nat;
  cd_gender : nat;
  cd_city : nat;
  cd_loyalty_member : nat;
  cd_is_active : nat
}.

(** [f"CUST{str(i+1).zfill(6)}"] *)
Definition customer_id (i : nat) : string :=
  ("CUST" +:+ zfill 6 (str (i + 1)))%string.

(** [max(18, min(75, age))] *)
Definition clamp_age (age : Z) : Z := Z.max 18 (Z.min 75 age).

Definition customer_segment (age : Z) : string :=
  if age <? 25 then "Young Adults"
  else if age <? 40 then "Prime Shoppers"
  else if age <? 60 then "Mature Customers"
  else "Senior Shoppers".

(** One turn of the loop [for i in range(1000)]. *)
Definition customer (i : nat) (draws : CustomerDraws) : option Customer :=
  let age := clamp_age (cd_age draws) in
  let registration_date :=
    datetime 2018 1 1 + randint 0 2000 (cd_registration draws) in
  let segment := customer_segment age in
  first_name ← choice first_names (cd_first_name draws);
  last_name ← choice last_names (cd_last_name draws);
  gender ← choice ["M"; "F"; "Other"] (cd_gender draws);
  city ← choice store_cities (cd_city draws);
  loyalty_member ← choice [true; false] (cd_loyalty_member draws);
  is_active ← choice [true; true; true; false] (cd_is_active draws);
  Some (mkCustomer (customer_id i) first_name last_name
          ("customer" +:+ str (i + 1) +:+ "@email.com") age gender city
          (strftime registration_date) segment loyalty_member is_active).

(** *** Products, as the sales loop reads them *)

(** [f"PRD{str(i+1).zfill(5)}"] *)
Definition product_id (i : nat) : string :=
  ("PRD" +:+ zfill 5 (str (i + 1)))%string.

(** The columns of [df_products] that the sales loop reads. *)
Record Product := mkProduct {
  pr_product_id : string;
  pr_price : float;
  pr_is_active : bool
}.

(** *** Sales *)

Record Sale := mkSale {
  sl_transaction_id : string;
  sl_transaction_date : string;
  sl_transaction_time : string;
  sl_store_id : string;
  sl_product_id : string;
  sl_customer_id : string;
  sl_quantity : Z;
  sl_unit_price : float;
  sl_discount_percent : Z;
  sl_discount_amount : float;
  sl_total_amount : float;
  sl_payment_method : string;
  sl_channel : string
}.

(** The draws of one turn of the sales loop, in the order of the calls;
    [wd_anonymous] is [random.random()], which the loop compares with
    0.2, the double [0x1.999999999999ap-3]. *)
Record SaleDraws := mkSaleDraws {
  wd_day : nat;
  wd_quantity : nat;
  wd_store : nat;
  wd_product : nat;
  wd_anonymous : float;
  wd_customer : nat;
  wd_discount : nat;
  wd_payment : nat;
  wd_hour : nat;
  wd_minute : nat;
  wd_channel : nat
}.

Definition start_date : Z := datetime 2023 1 1.
Definition end_date : Z := datetime 2024 12 31.

(** [f"TXN{str(transaction_id).zfill(8)}"] *)
Definition transaction_id_of (transaction_id : nat) : string :=
  ("TXN" +:+ zfill 8 (str transaction_id))%string.

(** [df[df['is_active'] == True][key].tolist()] *)
Definition active_stores (df_stores : list Store) : list string :=
  st_store_id <$> filter (λ s, st_is_active s = true) df_stores.

Definition active_products (df_products : list Product) : list string :=
  pr_product_id <$> filter (λ p, pr_is_active p = true) df_products.

Definition active_customers (df_customers : list Customer) : list string :=
  cu_customer_id <$> filter (λ c, cu_is_active c = true) df_customers.

(** [df_products[df_products['product_id'] == product_id]['price'].values[0]] *)
Definition price_of (df_products : list Product) (product_id : string)
  : option float :=
  pr_price <$> head (filter (λ p, pr_product_id p = product_id) df_products).

Section Sales.

(** [round(x, 2)] on a NumPy double. *)
Variable round_2 : float → float.

Context (df_stores : list Store) (df_products : list Product)
  (df_customers : list Customer).

(** One turn of the loop [for _ in range(10000)], with the value of
    [transaction_id] at its start. *)
Definition sale (transaction_id : nat) (draws : SaleDraws) : option Sale :=
  let days_diff := end_date - start_date in
  let random_day := start_date + randint 0 days_diff (wd_day draws) in
  quantity ←
    (if 5 <=? weekday random_day
     then choice [1; 2; 3; 4] (wd_quantity draws)
     else choice [1; 2; 3] (wd_quantity draws));
  store_id ← choice (active_stores df_stores) (wd_store draws);
  product_id ← choice (active_products df_products) (wd_product draws);
  customer_id ←
    (if PrimFloat.ltb 0x1.999999999999ap-3 (wd_anonymous draws)
     then Some <$> choice (active_customers df_customers) (wd_customer draws)
     else Some None);
  product_price ← price_of df_products product_id;
  discount_percent ←
    (if bool_decide (month random_day ∈ [1; 7])
     then choice [0; 10; 20; 30; 50] (wd_discount draws)
     else choice [0; 0; 0; 10] (wd_discount draws));
  let gross := (product_price * Pandas.of_int64 quantity)%float in
  let discount_amount :=
    round_2 (gross * Pandas.of_int64 discount_percent / 100)%float in
  let total_amount := round_2 (gross - discount_amount)%float in
  payment_method ←
    choice ["Cash"; "Credit Card"; "Debit Card"; "PayPal"; "Gift Card"]
      (wd_payment draws);
  channel ←
    choice ["In-Store"; "In-Store"; "In-Store"; "Online"] (wd_channel draws);
  Some (mkSale (transaction_id_of transaction_id) (strftime random_day)
          (zfill 2 (str (Z.to_nat (randint 9 20 (wd_hour draws))))
           +:+ ":" +:+ zfill 2 (str (Z.to_nat (randint 0 59 (wd_minute draws))))
           +:+ ":00")
          store_id product_id
          (match customer_id with
           | Some c => if decide (c = "") then "ANONYMOUS" else c
           | None => "ANONYMOUS"
           end)
          quantity product_price discount_percent discount_amount
          total_amount payment_method channel).

(** The loop: [transaction_id] starts at 1 and grows by one a turn. *)
Definition generate_sales (draws : list SaleDraws) : option (list Sale) :=
  mapM (λ p, sale (S p.1) p.2) (imap pair draws).

End Sales.

End Generator.

(** ** Sample tables and draws for the generator *)

Module GeneratorSamples.
Import Generator.

(** Two stores, the second one active. *)
Definition two_stores : list Store := [
  mkStore "ST0001" "Deichmann Berlin" "Berlin" "Outlet" "Small" 150
    "2010-01-01" false;
  mkStore "ST0002" "Deichmann Bonn" "Bonn" "Flagship Store" "Large" 500
    "2012-05-17" true
].

(** Two products, the first one active. *)
Definition two_products : list Product := [
  mkProduct "PRD00001" 25 true;
  mkProduct "PRD00002" 40 false
].

(** Two customers, the second one active. *)
Definition two_customers : list Customer := [
  mkCustomer "CUST000001" "Anna" "Schmidt" "customer1@email.com" 30 "F"
    "Berlin" "2018-01-01" "Prime Shoppers" true false;
  mkCustomer "CUST000002" "Ben" "Koch" "customer2@email.com" 61 "M"
    "Bonn" "2019-03-09" "Senior Shoppers" false true
].

(** Draws for a sale on the first day, with the last quantity and the
    last discount of their lists, to a customer. *)
Definition new_year_draws : SaleDraws :=
  mkSaleDraws 0 3 0 0 0.5 0 4 0 0 5 0.

(** The same draws with 0.125 for the customer. *)
Definition anonymous_draws : SaleDraws :=
  mkSaleDraws 0 3 0 0 0.125 0 4 0 0 5 0.

End GeneratorSamples.

(** ** Notions for the generator *)

Module GeneratorNotions.

(** The number that a string of digits writes, after [acc]. *)
Fixpoint decimal_value (acc : N) (s : string) : N :=
  match s with
  | EmptyString => acc
  | String a s' =>
      decimal_value (acc * 10 + N.of_nat (nat_of_ascii a - 48)) s'
  end.

End GeneratorNotions.

(** ** Step 8 of the notebook: the tables of the bronze layer *)

Module Listing.
Import Delta.

(** SQL [LIKE] for a pattern without escapes: [_] stands for any one
    character and [%] for any run of characters, the empty one
    included. *)
Fixpoint like (pattern s : string) : bool :=
  match pattern with
  | EmptyString => bool_decide (s = EmptyString)
  | String p pattern' =>
      if decide (p = "%"%char) then
        (fix from (s : string) : bool :=
           like pattern' s
           || match s with
              | EmptyString => false
              | String _ s' => from s'
              end) s
      else
        match s with
        | EmptyString => false
        | String c s' =>
            (bool_decide (p = "_"%char) || bool_decide (p = c))
            && like pattern' s'
        end
  end.

(** [spark.sql("SHOW TABLES").filter("tableName LIKE 'bronze_%'")]: the
    names of the tables of the catalog that match. *)
Definition bronze_tables (cat : catalog) : gset string :=
  filter (λ tableName, like "bronze_%" tableName = true) (dom cat).

End Listing.

Import Spark Delta Notebook Contract Samples.

(** * Properties *)

(** ** Schemas *)

(** C9.  Every dataset's schema has the columns of the input contract, in
    the contract's order, hence as many: 8 for stores, 12 for products,
    11 for customers and 13 for sales. *)
Theorem schema_matches_contract (d : Schemas.dataset) :
  fieldNames (Schemas.schema_of d) = Schemas.contract_columns d
  ∧ length (Schemas.schema_of d) = Schemas.contract_width d.
Proof. destruct d; split; reflexivity. Qed.

(** ** Reading *)

Section ReadTheorems.

Context (tokenize : string → list string).
Context (convert : DataType → string → option cell).




End ReadTheorems.


(** The stores file of the samples has three data lines and gives three
    rows; the empty [size_sqm], the date that is none and the fields
    missing from the short line are null, the rest of their rows is
    read. *)
Example read_stores_csv :
  read_csv split_commas plain_convert stores_csv_path Schemas.stores_schema
    stores_only
  = Some (mkDF (Reader.asNullable Schemas.stores_schema) [
      [Some (VString "ST0001"); Some (VString "Deichmann Berlin");
       Some (VString "Berlin"); Some (VString "Outlet");
       Some (VString "Small"); Some (VInteger 150); Some (VDate 19358);
       Some (VBoolean true)];
      [Some (VString "ST0002"); Some (VString "Deichmann Bonn");
       Some (VString "Bonn"); Some (VString "Flagship Store");
       Some (VString "Large"); None; None; Some (VBoolean true)];
      [Some (VString "ST0003"); Some (VString "Deichmann Kiel");
       Some (VString "Kiel"); None; None; None; None; None]
    ]).
Proof. reflexivity. Qed.

(** The notebook gives no [mode].  With [DROPMALFORMED] the same file
    gives one row, and with [FAILFAST] the read fails. *)
Example other_modes_on_stores_csv :
  (count <$> Reader.csv split_commas plain_convert stores_csv_path
     (Reader.with_schema Schemas.stores_schema
        (Reader.set_option "mode" "DROPMALFORMED"
           (Reader.set_option "header" "true" Reader.read))) stores_only)
  = Some 1
  ∧ Reader.csv split_commas plain_convert stores_csv_path
      (Reader.with_schema Schemas.stores_schema
         (Reader.set_option "mode" "FAILFAST"
            (Reader.set_option "header" "true" Reader.read))) stores_only
    = None.
Proof. split; reflexivity. Qed.

(** ** Name resolution and expressions *)

Section Resolution.

Lemma resolve_lookup (cols : list string) (i : nat) (c : string) :
  NoDup (Str.lower <$> cols) → cols !! i = Some c → resolve cols c = Some i.
Proof.
  intros Hnd Hi. unfold resolve.
  assert (Hfirst : list_find (λ x, Str.lower x = Str.lower c) cols = Some (i, c)).
  { apply list_find_Some. split_and!; [done..|].
    intros j y Hj Hlt Heq.
    assert (i = j); [|lia].
    eapply NoDup_lookup; [exact Hnd|..]; rewrite list_lookup_fmap.
    - by rewrite Hi.
    - rewrite Hj. simpl. by rewrite Heq. }
  rewrite Hfirst. case_decide as Hin; [|done].
  exfalso. apply list_elem_of_lookup in Hin as [j Hj].
  rewrite list_lookup_fmap, lookup_drop in Hj.
  assert (i = S i + j)%nat; [|lia].
  eapply NoDup_lookup; [exact Hnd|..]; rewrite list_lookup_fmap;
    [by rewrite Hi|done].
Qed.

End Resolution.

(** ** Lists *)

Section Lists.

Context {A B : Type} `{EqDecision A, EqDecision B}.

Lemma remove_dups_fmap_inj (f : A → B) `{!Inj (=) (=) f} (l : list A) :
  remove_dups (f <$> l) = f <$> remove_dups l.
Proof.
  induction l as [|x l IH]; [done|]. csimpl.
  destruct (decide_rel elem_of (f x) (f <$> l)) as [Hin|Hin],
           (decide_rel elem_of x l) as [Hin'|Hin']; csimpl; rewrite ?IH; try done.
  - by apply (list_elem_of_fmap_inj f) in Hin.
  - by apply (list_elem_of_fmap_2 f) in Hin'.
Qed.

Lemma length_filter_fmap (f : A → B) (P : B → Prop) `{∀ y, Decision (P y)}
    (l : list A) :
  length (filter P (f <$> l)) = length (filter (λ x, P (f x)) l).
Proof.
  induction l as [|x l IH]; [done|]. csimpl. rewrite !filter_cons.
  destruct (decide (P (f x))); csimpl; by rewrite IH.
Qed.


End Lists.

Section Expressions.

Context (now : Z) (df : DataFrame).
Hypothesis Hwf : wf_df df.

Lemma schema_lookup_name (i : nat) (c : string) :
  columns df !! i = Some c → ∃ f, schema df !! i = Some f ∧ name f = c.
Proof.
  unfold columns, fieldNames. rewrite list_lookup_fmap.
  destruct (schema df !! i) as [f|]; intros ?; simplify_eq/=; eauto.
Qed.

Lemma resolve_column (i : nat) (c : string) :
  columns df !! i = Some c → resolve (fieldNames (schema df)) c = Some i.
Proof. intros Hi. apply resolve_lookup; [apply (wf_names df Hwf)|done]. Qed.

Lemma typeOf_null_marker (c : string) :
  c ∈ columns df → typeOf (schema df) (null_marker c) = Some StringType.
Proof.
  intros [i Hi]%list_elem_of_lookup. simpl.
  rewrite (resolve_column i c Hi). simpl.
  destruct (schema_lookup_name i c Hi) as (f & -> & _). done.
Qed.

(** On every row, the marker of column [i] is non-null exactly when the
    cell of that column is null. *)
Lemma eval_null_marker (i : nat) (c : string) (r : Row) :
  columns df !! i = Some c →
  is_Some (eval now (schema df) r (null_marker c)) ↔ mjoin (r !! i) = None.
Proof.
  intros Hi. simpl. rewrite (resolve_column i c Hi). simpl.
  destruct (mjoin (r !! i)) as [v|]; simpl.
  - split; [by intros [? ?]|done].
  - split; [done|eauto].
Qed.

Lemma agg_count_null_marker (i : nat) (c : string) :
  columns df !! i = Some c →
  agg_count now df (null_marker c) = Z.of_nat (nulls_in_column i df).
Proof.
  intros Hi. unfold agg_count, nulls_in_column, column_cells.
  rewrite length_filter_fmap. do 2 f_equal.
  apply list_filter_iff. intros r. by apply eval_null_marker.
Qed.

Lemma null_counts_ok :
  null_counts now df
  = Some ((λ c, (c, agg_count now df (null_marker c))) <$> columns df).
Proof.
  unfold null_counts.
  destruct (mapM _ (columns df)) eqn:Hm; [done|].
  apply mapM_None, Exists_exists in Hm as (c & Hc & Hnone).
  by rewrite typeOf_null_marker in Hnone.
Qed.

End Expressions.

Global Instance singleton_row_inj : Inj (=) (=) (λ x : cell, [x]).
Proof. by intros x y [= ->]. Qed.

Lemma number_of_distinct_unique (cells : list cell) (n m : Z) :
  number_of_distinct cells n → number_of_distinct cells m → n = m.
Proof.
  intros (r1 & Hnd1 & H1 & ->) (r2 & Hnd2 & H2 & ->). f_equal.
  apply Permutation_length, NoDup_Permutation; [done..|].
  intros x. by rewrite H1, H2.
Qed.

(** ** The audit *)

Section Audit.

Context (now : Z) (df : DataFrame) (table_name : string).
Hypothesis Hwf : wf_df df.

Lemma distinct_count_column (i : nat) (c : string) :
  columns df !! i = Some c →
  distinct_count df c
  = Some (Z.of_nat (length (remove_dups (normalize <$> column_cells i df)))).
Proof.
  intros Hi. unfold distinct_count, select.
  unfold columns. rewrite (resolve_column df Hwf i c Hi). simpl.
  destruct (schema_lookup_name df i c Hi) as (f & -> & _). simpl.
  unfold count, distinct, column_cells. simpl. do 3 f_equal.
  rewrite <- !list_fmap_compose.
  rewrite <- (length_fmap (λ x : cell, [x]) (remove_dups _)).
  rewrite <- remove_dups_fmap_inj by apply _.
  by rewrite <- list_fmap_compose.
Qed.


Lemma key_column_report_ok :
  ∃ keys, key_column_report df = Some keys.
Proof.
  unfold key_column_report. destruct (has_key_column df); [|eauto].
  apply mapM_is_Some, Forall_forall. intros c Hc. simpl.
  apply list_elem_of_filter in Hc as [_ [i Hi]%list_elem_of_lookup].
  rewrite (distinct_count_column i c Hi). simpl. eauto.
Qed.

Lemma key_column_report_spec (keys : list (string * Z)) :
  key_column_report df = Some keys → has_key_column df = true →
  keys.*1 = filter (λ c, id_like c) (columns df)
  ∧ ∀ c n, (c, n) ∈ keys → distinct_count df c = Some n.
Proof.
  unfold key_column_report. intros Hk Hgate. rewrite Hgate in Hk.
  apply mapM_Some_1 in Hk.
  induction Hk as [|c [c' n] l k Hc _ IH]; [split; [done|]|].
  { intros ?? []%elem_of_nil. }
  destruct (distinct_count df c) as [m|] eqn:Hm; simplify_eq/=.
  destruct IH as [-> IH]. split; [done|].
  intros c0 n0 [[= -> ->]|?]%elem_of_cons; eauto.
Qed.

Lemma data_quality_check_unfold (keys : list (string * Z)) :
  key_column_report df = Some keys →
  data_quality_check now df table_name
  = Some (mkReport (count df)
            ((λ c, (c, mkNullRow (agg_count now df (null_marker c))
                         (null_percent (agg_count now df (null_marker c))
                            (count df)))) <$> columns df)
            (filter (λ p, 0 < Null_Count p.2)
               ((λ c, (c, mkNullRow (agg_count now df (null_marker c))
                            (null_percent (agg_count now df (null_marker c))
                               (count df)))) <$> columns df))
            keys, true).
Proof.
  intros Hk. unfold data_quality_check.
  rewrite (null_counts_ok now df Hwf), Hk. simpl.
  by rewrite <- !list_fmap_compose.
Qed.

End Audit.

(** Well-formedness of a concrete frame is found by computation. *)
Ltac solve_wf :=
  split;
  [ discriminate
  | apply (bool_decide_unpack _); vm_compute; reflexivity
  | repeat constructor ].

Section AuditTheorems.

Context (now : Z) (df : DataFrame) (table_name : string).


End AuditTheorems.


(** The scenario of the specification: three stores, one of them without
    [size_sqm], give one null out of three and the double nearest to
    33.33 as its percentage. *)
Example three_stores_size_sqm :
  ∃ report,
    data_quality_check 0 three_stores "Stores" = Some (report, true)
    ∧ Pandas.loc "size_sqm" (null_df report)
      = Some (mkNullRow 1 0x1.0aa3d70a3d70ap+5%float)
    ∧ printed_nulls report
      = [("size_sqm", mkNullRow 1 0x1.0aa3d70a3d70ap+5%float)].
Proof. eexists. split; [vm_compute; reflexivity|]. split; reflexivity. Qed.

Section EmptyFrame.

Context (now : Z) (df : DataFrame) (table_name : string).
Hypothesis Hwf : wf_df df.
Hypothesis Hempty : rows df = [].




End EmptyFrame.



Section KeyColumns.

Context (now : Z) (df : DataFrame) (table_name : string).
Hypothesis Hwf : wf_df df.




End KeyColumns.



(** The values A, A, B, C under [store_id] give the distinct count 3. *)
Example store_ids_distinct_count :
  ∃ report,
    data_quality_check 0 store_ids "Stores" = Some (report, true)
    ∧ distinct_counts report = [("store_id", 3)].
Proof. eexists. split; reflexivity. Qed.


(** ** Grouping rows by a key *)

Section Grouping.

Context {A K : Type} `{EqDecision K} (f : A → K).

Lemma filter_key_split (k : K) (ks : list K) (l : list A) :
  k ∉ ks →
  filter (λ x, f x = k) l ++ filter (λ x, f x ∈ ks) l
  ≡ₚ filter (λ x, f x ∈ k :: ks) l.
Proof.
  intros Hk. induction l as [|x l IH]; [done|].
  rewrite !filter_cons.
  destruct (decide (f x = k)) as [Heq|Hne].
  - rewrite decide_False by (rewrite Heq; exact Hk).
    rewrite decide_True by (rewrite Heq; left).
    simpl. by rewrite IH.
  - destruct (decide (f x ∈ ks)) as [Hin|Hnin].
    + rewrite decide_True by (by right).
      rewrite <- Permutation_middle. by rewrite IH.
    + rewrite decide_False; [done|].
      intros [?|?]%elem_of_cons; done.
Qed.

Lemma concat_groups (keys : list K) (l : list A) :
  NoDup keys →
  concat ((λ k, filter (λ x, f x = k) l) <$> keys)
  ≡ₚ filter (λ x, f x ∈ keys) l.
Proof.
  induction 1 as [|k ks Hk _ IH]; csimpl.
  - induction l as [|x l IHl]; [done|].
    rewrite filter_cons. rewrite decide_False; [done|]. apply not_elem_of_nil.
  - rewrite IH. by apply filter_key_split.
Qed.

Lemma filter_Forall (P : A → Prop) `{∀ x, Decision (P x)} (l : list A) :
  Forall P l → filter P l = l.
Proof.
  induction 1 as [|x l Hx _ IH]; [done|].
  rewrite filter_cons, decide_True by done. by rewrite IH.
Qed.

(** The groups of the distinct keys are a rearrangement of the list. *)
Lemma concat_groups_all (l : list A) :
  concat ((λ k, filter (λ x, f x = k) l) <$> remove_dups (f <$> l)) ≡ₚ l.
Proof.
  rewrite concat_groups by apply NoDup_remove_dups.
  rewrite filter_Forall; [done|].
  apply Forall_forall. intros x Hx.
  by apply elem_of_remove_dups, list_elem_of_fmap_2.
Qed.


End Grouping.

(** ** Metadata columns *)

Section Enrichment.

Context (now : Z).

Lemma withColumn_fresh (c : string) (e : Column) (t : DataType) (df : DataFrame) :
  Str.lower c ∉ Str.lower <$> columns df →
  typeOf (schema df) e = Some t →
  withColumn now c e df
  = Some (mkDF (schema df ++ [mkField c t (nullableOf (schema df) e)])
            ((λ r, r ++ [eval now (schema df) r e]) <$> rows df)).
Proof.
  intros Hfresh Ht. unfold withColumn. rewrite Ht. simpl.
  by rewrite bool_decide_eq_false_2.
Qed.

Lemma enrich_fresh (source_file : string) (df : DataFrame) :
  "ingestion_timestamp" ∉ Str.lower <$> columns df →
  "source_file" ∉ Str.lower <$> columns df →
  enrich now source_file df
  = Some (mkDF (schema df ++ metadata_fields)
            ((λ r, r ++ metadata_cells now source_file) <$> rows df)).
Proof.
  intros Hts Hfile. unfold enrich.
  rewrite (withColumn_fresh "ingestion_timestamp" current_timestamp
             TimestampType) by done.
  simpl.
  rewrite (withColumn_fresh "source_file" (lit (VString source_file))
             StringType); [|simpl|done].
  - simpl. rewrite <- app_assoc, <- list_fmap_compose. f_equal. f_equal.
    apply list_fmap_ext. intros _ r _. simpl. by rewrite <- app_assoc.
  - unfold columns, fieldNames. simpl. rewrite !fmap_app.
    intros [?|Hin]%elem_of_app; [done|].
    by apply list_elem_of_singleton in Hin.
Qed.

(** C6.  For every frame that has the columns of one of the four
    datasets, whatever its rows, and for every file name, enrichment
    returns the frame with its schema and the cells of every row as they
    are and two fields appended to them: the timestamp of the query, the
    same value in every row, and the file name. *)
Theorem enrich_appends_metadata (d : Schemas.dataset) (df : DataFrame)
    (source_file : string) :
  columns df = Schemas.contract_columns d →
  enrich now source_file df
  = Some (mkDF (schema df ++ metadata_fields)
            ((λ r, r ++ metadata_cells now source_file) <$> rows df)).
Proof.
  intros Hcols. apply enrich_fresh; rewrite Hcols;
    destruct d; apply (bool_decide_unpack _); vm_compute; reflexivity.
Qed.

End Enrichment.

Lemma enrich_appends_metadata_witness :
  enrich 1 "stores.csv" three_stores
  = Some (mkDF (schema three_stores ++ metadata_fields)
            ((λ r, r ++ metadata_cells 1 "stores.csv") <$> rows three_stores)).
Proof.
  apply (enrich_appends_metadata 1 Schemas.Stores three_stores "stores.csv").
  reflexivity.
Defined.

(** The statement of the notebook for the stores frame. *)
Example df_stores_three_stores :
  df_stores 1700000000000000 three_stores
  = Some (mkDF (Schemas.stores_schema ++ metadata_fields)
            ((λ r, r ++ [Some (VTimestamp 1700000000000000);
                         Some (VString "stores.csv")])
               <$> rows three_stores)).
Proof. reflexivity. Qed.

(** ** Writing and reading tables *)

Section Tables.

Context (tbl : string) (df : DataFrame) (cat : catalog).

Lemma writable_names (partition_by : list string) :
  writable df partition_by = true → NoDup (Str.lower <$> columns df).
Proof.
  unfold writable. rewrite !andb_true_iff.
  intros [[[_ Hnames] _] _]. by apply bool_decide_eq_true in Hnames.
Qed.

Lemma saveAsTable_overwrite (w : DataFrameWriter) (new : Snapshot) :
  snapshot_of w = Some new →
  parse_mode (w_mode w) = Some Overwrite →
  Str.lower <$> get_option "overwriteSchema" w = Some "true" →
  saveAsTable tbl w cat = Some (<[tbl := mkTable new (superseded tbl cat)]> cat).
Proof.
  intros Hnew Hmode Hopt. unfold saveAsTable, superseded.
  rewrite Hnew, Hmode. simpl. destruct (cat !! tbl) as [t|]; [|done].
  rewrite Hopt. rewrite (bool_decide_eq_true_2 (Some _ = Some _)) by done.
  by rewrite orb_true_r.
Qed.

Lemma write_table_ok :
  writable df [] = true →
  write_table tbl df cat
  = Some (<[tbl := mkTable (mkSnapshot (schema df) [] (layout [] (rows df)))
                     (superseded tbl cat)]> cat).
Proof.
  intros Hw. unfold write_table. apply saveAsTable_overwrite; [|done..].
  unfold snapshot_of. simpl. by rewrite Hw.
Qed.

Lemma write_sales_ok (i : nat) :
  writable df ["transaction_date"] = true →
  columns df !! i = Some "transaction_date" →
  write_sales tbl df cat
  = Some (<[tbl := mkTable (mkSnapshot (schema df) ["transaction_date"]
                               (layout [i] (rows df)))
                     (superseded tbl cat)]> cat).
Proof.
  intros Hw Hi. unfold write_sales. apply saveAsTable_overwrite; [|done..].
  unfold snapshot_of. simpl. rewrite Hw. simpl.
  by rewrite (resolve_lookup _ i _ (writable_names _ Hw) Hi).
Qed.

End Tables.

Section Reading.

Context (tbl : string) (cat : catalog).

Lemma layout_rows (idx : list nat) (rs : list Row) :
  concat (snd <$> layout idx rs) ≡ₚ rs.
Proof.
  unfold layout. rewrite <- list_fmap_compose.
  apply (concat_groups_all (partition_key idx)).
Qed.


Lemma table_insert (new : Snapshot) (old : list Snapshot) :
  table tbl (<[tbl := mkTable new old]> cat)
  = Some (mkDF (snap_schema new) (concat (snd <$> files new))).
Proof. unfold table. by rewrite lookup_insert_eq. Qed.

Lemma sql_count_star_insert (s : StructType) (cols : list string)
    (idx : list nat) (rs : list Row) (old : list Snapshot) :
  sql_count_star tbl (<[tbl := mkTable (mkSnapshot s cols (layout idx rs)) old]> cat)
  = Some (Z.of_nat (length rs)).
Proof.
  unfold sql_count_star. rewrite table_insert. simpl. unfold count. simpl.
  by rewrite layout_rows.
Qed.

End Reading.

Section WriteTheorems.

Context (tbl : string) (df : DataFrame) (cat : catalog).

(** C7.  Writing a frame that the writer accepts twice in succession to
    the same table succeeds both times; the count query returns the
    number of rows of the frame after the first write and after the
    second, and the table reads the same after both: the second write
    replaces the readable version, which goes to the history. *)
Theorem overwrite_twice_same_count :
  writable df [] = true →
  ∃ cat1 cat2,
    write_table tbl df cat = Some cat1
    ∧ sql_count_star tbl cat1 = Some (count df)
    ∧ write_table tbl df cat1 = Some cat2
    ∧ sql_count_star tbl cat2 = Some (count df)
    ∧ table tbl cat2 = table tbl cat1.
Proof.
  intros Hnames. eexists _, _.
  split; [by apply write_table_ok|].
  split; [apply sql_count_star_insert|].
  split; [by apply write_table_ok|].
  split; [apply sql_count_star_insert|].
  by rewrite !table_insert.
Qed.



End WriteTheorems.

Lemma overwrite_twice_same_count_witness :
  ∃ cat1 cat2,
    write_table "bronze_stores" enriched_three_stores ∅ = Some cat1
    ∧ sql_count_star "bronze_stores" cat1 = Some (count enriched_three_stores)
    ∧ write_table "bronze_stores" enriched_three_stores cat1 = Some cat2
    ∧ sql_count_star "bronze_stores" cat2 = Some (count enriched_three_stores)
    ∧ table "bronze_stores" cat2 = table "bronze_stores" cat1.
Proof.
  apply (overwrite_twice_same_count "bronze_stores" enriched_three_stores ∅).
  reflexivity.
Defined.



(** Sales of 2023-01-01 and 2023-01-02 are written to two directories,
    one per date, and all three rows are read back. *)
Example two_days_two_partitions :
  ∃ cat' t,
    write_sales "bronze_sales" two_days_of_sales ∅ = Some cat'
    ∧ cat' !! "bronze_sales" = Some t
    ∧ (files (current t)).*1 = [[Some (VDate 19359)]; [Some (VDate 19358)]]
    ∧ length <$> (files (current t)).*2 = [1; 2]%nat
    ∧ sql_count_star "bronze_sales" cat' = Some 3.
Proof.
  eexists _, _. split; [vm_compute; reflexivity|].
  split; [reflexivity|]. split_and!; vm_compute; reflexivity.
Qed.

(** In append mode the same two writes give twice the rows: the count
    of C7 is a property of the mode the notebook chose. *)
Example append_twice_accumulates :
  ∃ cat1 cat2,
    saveAsTable "bronze_stores" (mode "append" (write enriched_three_stores)) ∅
    = Some cat1
    ∧ saveAsTable "bronze_stores" (mode "append" (write enriched_three_stores)) cat1
      = Some cat2
    ∧ sql_count_star "bronze_stores" cat1 = Some 3
    ∧ sql_count_star "bronze_stores" cat2 = Some 6.
Proof.
  eexists _, _. split; [vm_compute; reflexivity|].
  split; [vm_compute; reflexivity|]. split; vm_compute; reflexivity.
Qed.


(** The scenario of the specification from end to end: the three stores,
    one without [size_sqm], are audited, enriched, written and counted. *)
Example run_three_stores :
  ∃ q_stores q2 q3 q4 counts cat,
    run 0 1 2 3 4
      (mkRaw three_stores (mkDF Schemas.products_schema [])
         (mkDF Schemas.customers_schema []) two_days_of_sales) ∅
    = Some ([q_stores; q2; q3; q4], counts, cat)
    ∧ Null_Count <$> Pandas.loc "size_sqm" (null_df q_stores.1) = Some 1
    ∧ stores_count counts = 3
    ∧ sales_count counts = 3.
Proof.
  eexists _, _, _, _, _, _. split; [vm_compute; reflexivity|].
  split_and!; reflexivity.
Qed.

(** * Further properties of the notebook *)

Import Listing.

(** ** The audit on any well-formed frame *)

Section AuditReport.

Context (now : Z) (df : DataFrame) (table_name : string).
Hypothesis Hwf : wf_df df.

Lemma data_quality_check_ok :
  ∃ report, data_quality_check now df table_name = Some (report, true).
Proof.
  destruct (key_column_report_ok df Hwf) as [keys Hkeys].
  eexists. by apply data_quality_check_unfold.
Qed.

Lemma data_quality_check_inv (report : QualityReport) (b : bool) :
  data_quality_check now df table_name = Some (report, b) →
  b = true
  ∧ total_rows report = count df
  ∧ null_df report
    = (λ c, (c, mkNullRow (agg_count now df (null_marker c))
                  (null_percent (agg_count now df (null_marker c)) (count df))))
        <$> columns df
  ∧ printed_nulls report = filter (λ p, 0 < Null_Count p.2) (null_df report)
  ∧ key_column_report df = Some (distinct_counts report).
Proof.
  destruct (key_column_report_ok df Hwf) as [keys Hkeys].
  rewrite (data_quality_check_unfold now df table_name Hwf keys Hkeys).
  intros [= <- <-]. by rewrite Hkeys.
Qed.

(** The table of nulls that the audit prints has a row for a column
    exactly when the column has a null cell, and the row carries the number
    of null cells. *)
Theorem printed_nulls_are_the_columns_with_nulls
    (report : QualityReport) (c : string) (row : NullRow) :
  data_quality_check now df table_name = Some (report, true) →
  (c, row) ∈ printed_nulls report
  ↔ ∃ i, columns df !! i = Some c
         ∧ (0 < nulls_in_column i df)%nat
         ∧ row = mkNullRow (Z.of_nat (nulls_in_column i df))
                   (null_percent (Z.of_nat (nulls_in_column i df)) (count df)).
Proof.
  intros Hrun.
  apply data_quality_check_inv in Hrun as (_ & _ & Hnull & Hprinted & _).
  rewrite Hprinted, Hnull, list_elem_of_filter, list_elem_of_fmap. split.
  - intros (Hpos & c' & [= -> ->] & [i Hi]%list_elem_of_lookup).
    simpl in Hpos. rewrite (agg_count_null_marker now df Hwf i c' Hi) in *.
    exists i. split_and!; [done|lia|done].
  - intros (i & Hi & Hpos & ->). simpl. split; [lia|].
    exists c. rewrite (agg_count_null_marker now df Hwf i c Hi).
    split; [done|]. apply list_elem_of_lookup. eauto.
Qed.

End AuditReport.

Section RemoveDups.

Context {A : Type} `{EqDecision A}.

Lemma length_remove_dups (l : list A) :
  (length (remove_dups l) ≤ length l)%nat.
Proof.
  induction l as [|x l IH]; simpl; [done|].
  destruct (decide_rel elem_of x l); simpl; lia.
Qed.

Lemma length_remove_dups_eq (l : list A) :
  length (remove_dups l) = length l ↔ NoDup l.
Proof.
  split.
  - induction l as [|x l IH]; simpl; [constructor|].
    pose proof (length_remove_dups l).
    destruct (decide_rel elem_of x l) as [Hin|Hin]; simpl; [lia|].
    intros Hlen. constructor; [done|]. apply IH. lia.
  - induction 1 as [|x l Hx _ IH]; simpl; [done|].
    destruct (decide_rel elem_of x l); [done|]. simpl. by rewrite IH.
Qed.

End RemoveDups.

Section AuditKeys.

Context (now : Z) (df : DataFrame) (table_name : string).
Hypothesis Hwf : wf_df df.

(** The audit prints distinct counts exactly when the frame has one of
    the columns [store_id], [product_id] and [customer_id]; when it has
    one, that column is among those counted. *)
Theorem distinct_counts_iff_key_column (report : QualityReport) :
  data_quality_check now df table_name = Some (report, true) →
  (distinct_counts report ≠ [] ↔ has_key_column df = true)
  ∧ ∀ c, c ∈ ["store_id"; "product_id"; "customer_id"] →
         c ∈ columns df → c ∈ (distinct_counts report).*1.
Proof.
  intros Hrun.
  apply (data_quality_check_inv now df table_name Hwf) in Hrun
    as (_ & _ & _ & _ & Hkeys).
  assert (∀ c, c ∈ ["store_id"; "product_id"; "customer_id"] →
               c ∈ columns df →
               has_key_column df = true ∧ c ∈ (distinct_counts report).*1)
    as Hpresent.
  { intros c Hc Hin.
    assert (has_key_column df = true ∧ id_like c = true) as [Hgate Hid].
    { unfold has_key_column. rewrite !orb_true_iff, !bool_decide_eq_true.
      rewrite !elem_of_cons, elem_of_nil in Hc.
      destruct Hc as [->|[->|[->|[]]]]; auto. }
    split; [done|].
    destruct (key_column_report_spec df _ Hkeys Hgate) as [-> _].
    apply list_elem_of_filter. split; [by apply Is_true_true|done]. }
  split; [split|].
  - intros Hne. destruct (has_key_column df) eqn:Hgate; [done|].
    unfold key_column_report in Hkeys. rewrite Hgate in Hkeys.
    injection Hkeys as Hnil. by rewrite <- Hnil in Hne.
  - unfold has_key_column. rewrite !orb_true_iff, !bool_decide_eq_true.
    intros Hgate Hnil.
    assert (∃ c, c ∈ ["store_id"; "product_id"; "customer_id"]
                 ∧ c ∈ columns df) as (c & Hc & Hin).
    { destruct Hgate as [[?|?]|?]; eexists; (split; [|done]);
        rewrite !elem_of_cons; auto. }
    destruct (Hpresent c Hc Hin) as [_ Hcounted].
    rewrite Hnil in Hcounted. by apply elem_of_nil in Hcounted.
  - intros c Hc Hin. by apply Hpresent.
Qed.

(** A distinct count that the audit prints for a column is at most the
    number of rows, and it is the number of rows exactly when no two cells
    of the column are equal. *)
Theorem distinct_count_detects_duplicates
    (report : QualityReport) (i : nat) (c : string) (n : Z) :
  data_quality_check now df table_name = Some (report, true) →
  columns df !! i = Some c →
  (c, n) ∈ distinct_counts report →
  0 ≤ n ≤ count df
  ∧ (n = count df ↔ NoDup (normalize <$> column_cells i df)).
Proof.
  intros Hrun Hi Hin.
  apply (data_quality_check_inv now df table_name Hwf) in Hrun
    as (_ & _ & _ & _ & Hkeys).
  assert (has_key_column df = true) as Hgate.
  { destruct (has_key_column df) eqn:Hgate; [done|].
    unfold key_column_report in Hkeys. rewrite Hgate in Hkeys.
    injection Hkeys as Hnil. rewrite <- Hnil in Hin.
    by apply elem_of_nil in Hin. }
  destruct (key_column_report_spec df _ Hkeys Hgate) as [_ Hcounts].
  specialize (Hcounts c n Hin).
  rewrite (distinct_count_column df Hwf i c Hi) in Hcounts.
  injection Hcounts as <-.
  assert (length (normalize <$> column_cells i df) = length (rows df)) as Hlen.
  { unfold column_cells. by rewrite !length_fmap. }
  pose proof (length_remove_dups (normalize <$> column_cells i df)).
  unfold count. split; [lia|].
  rewrite <- length_remove_dups_eq. lia.
Qed.

End AuditKeys.

(** ** The test for identifier-like columns *)

Section Substrings.

Lemma append_cons (a : ascii) (s t : string) :
  (String a s +:+ t = String a (s +:+ t))%string.
Proof. reflexivity. Qed.

Lemma append_nil (t : string) : ("" +:+ t = t)%string.
Proof. reflexivity. Qed.

Lemma prefix_spec (sub s : string) :
  String.prefix sub s = true ↔ ∃ post, s = (sub +:+ post)%string.
Proof.
  revert s. induction sub as [|a sub IH]; intros s.
  - destruct s; simpl; (split; [eauto|done]).
  - setoid_rewrite append_cons. destruct s as [|b s]; simpl.
    + split; [done|]. by intros [post ?].
    + destruct (Ascii.ascii_dec a b) as [->|Hne].
      * rewrite IH. split; intros [post Hpost]; exists post; congruence.
      * split; [done|]. intros [post Hpost]. congruence.
Qed.

Lemma contains_nil (sub : string) :
  Str.contains sub "" = String.prefix sub "".
Proof. simpl. apply orb_false_r. Qed.

Lemma contains_cons (sub : string) (b : ascii) (s : string) :
  Str.contains sub (String b s)
  = String.prefix sub (String b s) || Str.contains sub s.
Proof. reflexivity. Qed.

Lemma contains_spec (sub s : string) :
  Str.contains sub s = true ↔ ∃ pre post, s = (pre +:+ sub +:+ post)%string.
Proof.
  induction s as [|b s IH].
  - rewrite contains_nil, prefix_spec. split.
    + intros [post Hpost]. by exists "", post.
    + intros (pre & post & Hs). exists post.
      destruct pre; [done|]. by rewrite append_cons in Hs.
  - rewrite contains_cons, orb_true_iff, prefix_spec, IH. split.
    + intros [[post Hpost]|(pre & post & ->)].
      * by exists "", post.
      * by exists (String b pre), post.
    + intros (pre & post & Hs). destruct pre as [|a pre].
      * left. by exists post.
      * right. exists pre, post. rewrite append_cons in Hs. congruence.
Qed.

Lemma lower_ascii_idemp (a : ascii) :
  Str.lower_ascii (Str.lower_ascii a) = Str.lower_ascii a.
Proof. by destruct a as [[] [] [] [] [] [] [] []]. Qed.

Lemma lower_idemp (s : string) : Str.lower (Str.lower s) = Str.lower s.
Proof.
  induction s as [|a s IH]; simpl; [done|].
  by rewrite lower_ascii_idemp, IH.
Qed.

(** A column is identifier-like exactly when its name in lower case has
    [id] somewhere in it, as a run of two characters and not as a word of
    its own; the case of the name does not matter. *)
Theorem id_like_is_substring_test (col_name : string) :
  (id_like col_name = true
   ↔ ∃ pre post, Str.lower col_name = (pre +:+ "id" +:+ post)%string)
  ∧ id_like (Str.lower col_name) = id_like col_name.
Proof.
  unfold id_like. split; [apply contains_spec|by rewrite lower_idemp].
Qed.

End Substrings.

(** [width] and [PAID_AMOUNT] are identifier-like, [is_active] is not. *)
Example id_like_samples :
  id_like "width" = true ∧ id_like "PAID_AMOUNT" = true
  ∧ id_like "is_active" = false.
Proof. done. Qed.

(** ** Reading and then auditing *)

Section ReadAudit.

Context (tokenize : string → list string).
Context (convert : DataType → string → option cell).
Context (path : string) (s : StructType) (fs : Reader.dbfs).





End ReadAudit.

Section ReadAuditDatasets.

Context (tokenize : string → list string).
Context (convert : DataType → string → option cell).
Context (now : Z) (d : Schemas.dataset) (path table_name : string).
Context (fs : Reader.dbfs) (lines : list string).


End ReadAuditDatasets.

(** ** Writes, other tables and earlier versions *)

Section Overwrite.

Context (tbl : string) (df : DataFrame) (cat cat' : catalog).

Lemma saveAsTable_overwrite_inv (w : DataFrameWriter) :
  parse_mode (w_mode w) = Some Overwrite →
  Str.lower <$> Delta.get_option "overwriteSchema" w = Some "true" →
  saveAsTable tbl w cat = Some cat' →
  ∃ new, snapshot_of w = Some new
         ∧ cat' = <[tbl := mkTable new (superseded tbl cat)]> cat.
Proof.
  intros Hmode Hopt Hsave.
  destruct (snapshot_of w) as [new|] eqn:Hnew.
  - rewrite (saveAsTable_overwrite tbl cat w new Hnew Hmode Hopt) in Hsave.
    injection Hsave as <-. eauto.
  - unfold saveAsTable in Hsave. by rewrite Hnew in Hsave.
Qed.


End Overwrite.


(** ** The listing of step 8 *)

Section ListingFacts.

Lemma like_percent (s : string) : like "%" s = true.
Proof. induction s as [|c s IH]; [done|]. simpl in *. by rewrite IH. Qed.

Lemma like_literal (p c : ascii) (pattern s : string) :
  p ≠ "%"%char → p ≠ "_"%char →
  like (String p pattern) (String c s) = true ↔ p = c ∧ like pattern s = true.
Proof.
  intros Hp Hu. simpl. rewrite decide_False by done.
  rewrite (bool_decide_eq_false_2 (p = "_"%char)) by done. simpl.
  by rewrite andb_true_iff, bool_decide_eq_true.
Qed.

Lemma like_literal_nil (p : ascii) (pattern : string) :
  p ≠ "%"%char → like (String p pattern) "" = false.
Proof. intros Hp. simpl. by rewrite decide_False. Qed.

Lemma like_bronze (tableName : string) :
  like "bronze_%" tableName = true
  ↔ ∃ c rest, tableName = ("bronze" +:+ String c rest)%string.
Proof.
  split.
  - do 6 (destruct tableName as [|? tableName];
          [by rewrite like_literal_nil in *|
           intros [<- H]%like_literal; [revert H|done..]]).
    destruct tableName as [|c rest]; [done|]. intros _. by exists c, rest.
  - intros (c & rest & ->). simpl. apply like_percent.
Qed.

Lemma elem_of_bronze_tables (cat : catalog) (tableName : string) :
  tableName ∈ bronze_tables cat
  ↔ is_Some (cat !! tableName)
    ∧ ∃ c rest, tableName = ("bronze" +:+ String c rest)%string.
Proof.
  unfold bronze_tables. rewrite elem_of_filter, elem_of_dom, like_bronze.
  tauto.
Qed.

(** The filter of the listing takes the underscore of its pattern for any
    one character: the tables listed are those of the catalog whose name
    is [bronze] followed by at least one character, whatever it is. *)
Theorem bronze_tables_are_prefix_matches (cat : catalog) (tableName : string) :
  tableName ∈ bronze_tables cat
  ↔ is_Some (cat !! tableName)
    ∧ ∃ c rest, tableName = ("bronze" +:+ String c rest)%string.
Proof. apply elem_of_bronze_tables. Qed.

End ListingFacts.

(** A table called [bronzeXstores] is listed, one called [bronze] is
    not. *)
Example bronze_tables_sample :
  ∃ cat,
    write_table "bronzeXstores" enriched_three_stores ∅ ≫=
      write_table "bronze" enriched_three_stores = Some cat
    ∧ bronze_tables cat = {[ "bronzeXstores" ]}.
Proof. eexists. split; [vm_compute; reflexivity|]. by vm_compute. Qed.

(** ** The cells in order *)

Section RunFacts.

Lemma enriched_writable (d : Schemas.dataset) (df : DataFrame)
    (rs : list Row) (partition_by : list string) :
  columns df = Schemas.contract_columns d →
  (length partition_by ≤ 1)%nat →
  writable (mkDF (schema df ++ metadata_fields) rs) partition_by = true.
Proof.
  intros Hcols Hlen. unfold writable.
  assert (columns (mkDF (schema df ++ metadata_fields) rs)
          = Schemas.contract_columns d ++ fieldNames metadata_fields) as ->.
  { unfold columns, fieldNames in *. simpl. by rewrite fmap_app, Hcols. }
  simpl. rewrite !andb_true_iff, !bool_decide_eq_true. split_and!.
  - by destruct (schema df).
  - destruct d; apply (bool_decide_unpack _); vm_compute; reflexivity.
  - by destruct d.
  - rewrite length_app. simpl. lia.
Qed.

Lemma enrich_dataset (now : Z) (d : Schemas.dataset) (df : DataFrame)
    (source_file : string) :
  columns df = Schemas.contract_columns d →
  enrich now source_file df
  = Some (mkDF (schema df ++ metadata_fields)
            ((λ r, r ++ metadata_cells now source_file) <$> rows df)).
Proof.
  intros Hcols. apply enrich_fresh; rewrite Hcols;
    destruct d; apply (bool_decide_unpack _); vm_compute; reflexivity.
Qed.

Lemma sql_count_star_insert_ne (tbl other : string) (t : Table)
    (cat : catalog) :
  tbl ≠ other →
  sql_count_star tbl (<[other := t]> cat) = sql_count_star tbl cat.
Proof.
  intros Hne. unfold sql_count_star, table. by rewrite lookup_insert_ne.
Qed.

Context (t_audit t_stores t_products t_customers t_sales : Z).
Context (raw : RawFrames) (cat : catalog).

Lemma run_steps :
  wf_df (df_stores_raw raw) → wf_df (df_products_raw raw) →
  wf_df (df_customers_raw raw) → wf_df (df_sales_raw raw) →
  columns (df_stores_raw raw) = Schemas.contract_columns Schemas.Stores →
  columns (df_products_raw raw) = Schemas.contract_columns Schemas.Products →
  columns (df_customers_raw raw) = Schemas.contract_columns Schemas.Customers →
  columns (df_sales_raw raw) = Schemas.contract_columns Schemas.Sales →
  ∃ reports cat',
    run t_audit t_stores t_products t_customers t_sales raw cat
    = Some (reports,
            mkCounts (count (df_stores_raw raw)) (count (df_products_raw raw))
              (count (df_customers_raw raw)) (count (df_sales_raw raw)),
            cat')
    ∧ length reports = 4%nat
    ∧ Forall (λ q, q.2 = true) reports.
Proof.
  intros Hw1 Hw2 Hw3 Hw4 Hc1 Hc2 Hc3 Hc4. unfold run.
  destruct (data_quality_check_ok t_audit _ "Stores" Hw1) as [q1 ->].
  destruct (data_quality_check_ok t_audit _ "Products" Hw2) as [q2 ->].
  destruct (data_quality_check_ok t_audit _ "Customers" Hw3) as [q3 ->].
  destruct (data_quality_check_ok t_audit _ "Sales" Hw4) as [q4 ->].
  unfold df_stores, df_products, df_customers, df_sales.
  cbn [mbind option_bind]. eexists _, _.
  rewrite (enrich_dataset t_stores Schemas.Stores _ "stores.csv" Hc1).
  cbn [mbind option_bind].
  rewrite write_table_ok
    by (apply (enriched_writable Schemas.Stores); [done|simpl; lia]).
  cbn [mbind option_bind].
  rewrite (enrich_dataset t_products Schemas.Products _ "products.csv" Hc2).
  cbn [mbind option_bind].
  rewrite write_table_ok
    by (apply (enriched_writable Schemas.Products); [done|simpl; lia]).
  cbn [mbind option_bind].
  rewrite (enrich_dataset t_customers Schemas.Customers _ "customers.csv" Hc3).
  cbn [mbind option_bind].
  rewrite write_table_ok
    by (apply (enriched_writable Schemas.Customers); [done|simpl; lia]).
  cbn [mbind option_bind].
  rewrite (enrich_dataset t_sales Schemas.Sales _ "sales.csv" Hc4).
  cbn [mbind option_bind].
  rewrite (write_sales_ok _ _ _ 1).
  2:{ apply (enriched_writable Schemas.Sales); [done|simpl; lia]. }
  2:{ unfold columns, fieldNames in *. cbn [schema]. rewrite fmap_app, Hc4.
      reflexivity. }
  cbn [mbind option_bind]. unfold record_counts.
  rewrite (sql_count_star_insert_ne "bronze_stores" "bronze_sales") by done.
  rewrite (sql_count_star_insert_ne "bronze_stores" "bronze_customers") by done.
  rewrite (sql_count_star_insert_ne "bronze_stores" "bronze_products") by done.
  rewrite sql_count_star_insert.
  rewrite (sql_count_star_insert_ne "bronze_products" "bronze_sales") by done.
  rewrite (sql_count_star_insert_ne "bronze_products" "bronze_customers")
    by done.
  rewrite sql_count_star_insert.
  rewrite (sql_count_star_insert_ne "bronze_customers" "bronze_sales") by done.
  rewrite sql_count_star_insert.
  rewrite sql_count_star_insert.
  cbn [mbind option_bind]. unfold count. cbn [rows]. rewrite !length_fmap.
  split; [reflexivity|].
  split; [done|]. repeat constructor.
Qed.

(** Steps 5 to 9 on frames that are well formed and have the columns of
    their datasets never fail, whatever the rows and whatever the catalog
    holds before: four reports are printed, and the summary counts for
    every table the rows of the frame that was written to it. *)
Theorem run_counts_what_was_read :
  wf_df (df_stores_raw raw) → wf_df (df_products_raw raw) →
  wf_df (df_customers_raw raw) → wf_df (df_sales_raw raw) →
  columns (df_stores_raw raw) = Schemas.contract_columns Schemas.Stores →
  columns (df_products_raw raw) = Schemas.contract_columns Schemas.Products →
  columns (df_customers_raw raw) = Schemas.contract_columns Schemas.Customers →
  columns (df_sales_raw raw) = Schemas.contract_columns Schemas.Sales →
  ∃ reports cat',
    run t_audit t_stores t_products t_customers t_sales raw cat
    = Some (reports,
            mkCounts (count (df_stores_raw raw)) (count (df_products_raw raw))
              (count (df_customers_raw raw)) (count (df_sales_raw raw)),
            cat')
    ∧ length reports = 4%nat
    ∧ Forall (λ q, q.2 = true) reports.
Proof. apply run_steps. Qed.

End RunFacts.

Lemma run_counts_what_was_read_witness :
  ∃ reports cat',
    run 0 1 2 3 4
      (mkRaw three_stores (mkDF Schemas.products_schema [])
         (mkDF Schemas.customers_schema []) two_days_of_sales) ∅
    = Some (reports, mkCounts 3 0 0 3, cat')
    ∧ length reports = 4%nat
    ∧ Forall (λ q, q.2 = true) reports.
Proof.
  apply (run_counts_what_was_read 0 1 2 3 4
           (mkRaw three_stores (mkDF Schemas.products_schema [])
              (mkDF Schemas.customers_schema []) two_days_of_sales) ∅);
    first [solve_wf | reflexivity].
Defined.

Section IngestFacts.

Context (tokenize : string → list string).
Context (convert : DataType → string → option cell).
Context (t_audit t_stores t_products t_customers t_sales : Z).
Context (fs : Reader.dbfs) (cat : catalog).
Context (stores products customers sales : list string).



End IngestFacts.


Lemma printed_nulls_are_the_columns_with_nulls_witness :
  ∃ report,
    data_quality_check 0 three_stores "Stores" = Some (report, true)
    ∧ (("size_sqm", mkNullRow 1 (null_percent 1 3)) ∈ printed_nulls report
       ↔ ∃ i, columns three_stores !! i = Some "size_sqm"
              ∧ (0 < nulls_in_column i three_stores)%nat
              ∧ mkNullRow 1 (null_percent 1 3)
                = mkNullRow (Z.of_nat (nulls_in_column i three_stores))
                    (null_percent (Z.of_nat (nulls_in_column i three_stores))
                       (count three_stores))).
Proof.
  eexists. split; [vm_compute; reflexivity|].
  apply (printed_nulls_are_the_columns_with_nulls 0 three_stores "Stores").
  - solve_wf.
  - vm_compute. reflexivity.
Defined.

Lemma distinct_counts_iff_key_column_witness :
  ∃ report,
    data_quality_check 0 store_ids "Stores" = Some (report, true)
    ∧ (distinct_counts report ≠ [] ↔ has_key_column store_ids = true)
    ∧ ∀ c, c ∈ ["store_id"; "product_id"; "customer_id"] →
           c ∈ columns store_ids → c ∈ (distinct_counts report).*1.
Proof.
  eexists. split; [vm_compute; reflexivity|].
  apply (distinct_counts_iff_key_column 0 store_ids "Stores").
  - solve_wf.
  - vm_compute. reflexivity.
Defined.

Lemma distinct_count_detects_duplicates_witness :
  0 ≤ 3 ≤ count store_ids
  ∧ (3 = count store_ids ↔ NoDup (normalize <$> column_cells 0 store_ids)).
Proof.
  apply (distinct_count_detects_duplicates 0 store_ids "Stores"
           (ltac:(solve_wf))
           (mkReport 4 [("store_id", mkNullRow 0 0%float)] []
              [("store_id", 3)])
           0%nat "store_id" 3).
  - vm_compute. reflexivity.
  - reflexivity.
  - apply (bool_decide_unpack _). vm_compute. reflexivity.
Defined.


(** In the stores file of the samples two data lines out of three have
    no date that can be read. *)
Example stores_csv_opening_date_nulls :
  ∃ df report,
    read_csv split_commas plain_convert stores_csv_path Schemas.stores_schema
      stores_only = Some df
    ∧ data_quality_check 0 df "Stores" = Some (report, true)
    ∧ Null_Count <$> Pandas.loc "opening_date" (null_df report) = Some 2
    ∧ Null_Count <$> Pandas.loc "store_id" (null_df report) = Some 0.
Proof. eexists _, _. split_and!; vm_compute; reflexivity. Qed.

(** ** What a run leaves in the catalog *)

Section RunCatalog.

Lemma write_inv (save : string → DataFrame → catalog → option catalog)
    (tbl : string) (df : DataFrame) (cat cat' : catalog) :
  save = write_table ∨ save = write_sales →
  save tbl df cat = Some cat' → ∃ t, cat' = <[tbl := t]> cat.
Proof.
  intros [-> | ->] Hsave;
    apply saveAsTable_overwrite_inv in Hsave as (new & _ & ->); eauto.
Qed.

Context (t_audit t_stores t_products t_customers t_sales : Z).
Context (raw : RawFrames) (cat cat' : catalog).
Context (reports : list (QualityReport * bool)) (counts : RecordCounts).

(** A run that succeeds leaves the four tables of the bronze layer in
    the catalog and touches no other table; the listing of step 8 shows
    the four tables and what it would have shown before the run. *)
Theorem run_touches_the_four_tables_only :
  run t_audit t_stores t_products t_customers t_sales raw cat
  = Some (reports, counts, cat') →
  (∀ tbl, tbl ∈ ["bronze_stores"; "bronze_products"; "bronze_customers";
                 "bronze_sales"] → is_Some (cat' !! tbl))
  ∧ (∀ other, other ∉ ["bronze_stores"; "bronze_products";
                       "bronze_customers"; "bronze_sales"] →
              cat' !! other = cat !! other)
  ∧ bronze_tables cat'
    = {[ "bronze_stores"; "bronze_products"; "bronze_customers";
         "bronze_sales" ]} ∪ bronze_tables cat.
Proof.
  unfold run. intros Hrun.
  apply bind_Some in Hrun as (q1 & _ & Hrun).
  apply bind_Some in Hrun as (q2 & _ & Hrun).
  apply bind_Some in Hrun as (q3 & _ & Hrun).
  apply bind_Some in Hrun as (q4 & _ & Hrun).
  apply bind_Some in Hrun as (stores & _ & Hrun).
  apply bind_Some in Hrun as (cat1 & Hw1 & Hrun).
  apply bind_Some in Hrun as (products & _ & Hrun).
  apply bind_Some in Hrun as (cat2 & Hw2 & Hrun).
  apply bind_Some in Hrun as (customers & _ & Hrun).
  apply bind_Some in Hrun as (cat3 & Hw3 & Hrun).
  apply bind_Some in Hrun as (sales & _ & Hrun).
  apply bind_Some in Hrun as (cat4 & Hw4 & Hrun).
  apply bind_Some in Hrun as (counts' & _ & Hrun).
  injection Hrun as _ _ <-.
  apply (write_inv write_table) in Hw1 as [t1 ->]; [|by left].
  apply (write_inv write_table) in Hw2 as [t2 ->]; [|by left].
  apply (write_inv write_table) in Hw3 as [t3 ->]; [|by left].
  apply (write_inv write_sales) in Hw4 as [t4 ->]; [|by right].
  assert (∀ tbl, tbl ∈ ["bronze_stores"; "bronze_products";
                        "bronze_customers"; "bronze_sales"] →
                 is_Some (<["bronze_sales":=t4]> (<["bronze_customers":=t3]>
                   (<["bronze_products":=t2]> (<["bronze_stores":=t1]> cat)))
                   !! tbl)) as Hfour.
  { intros tbl Htbl. rewrite !elem_of_cons, elem_of_nil in Htbl.
    destruct Htbl as [->|[->|[->|[->|[]]]]]; by simplify_map_eq. }
  assert (∀ other, other ∉ ["bronze_stores"; "bronze_products";
                            "bronze_customers"; "bronze_sales"] →
                   <["bronze_sales":=t4]> (<["bronze_customers":=t3]>
                     (<["bronze_products":=t2]> (<["bronze_stores":=t1]> cat)))
                   !! other = cat !! other) as Hother.
  { intros other Hother. rewrite !not_elem_of_cons in Hother.
    destruct Hother as (? & ? & ? & ? & _).
    by rewrite !lookup_insert_ne. }
  split; [done|]. split; [done|].
  apply set_eq. intros tbl.
  rewrite elem_of_union, !elem_of_bronze_tables.
  rewrite !elem_of_union, !elem_of_singleton.
  destruct (decide (tbl ∈ ["bronze_stores"; "bronze_products";
                           "bronze_customers"; "bronze_sales"]))
    as [Htbl|Htbl].
  - split; [rewrite !elem_of_cons, elem_of_nil in Htbl; tauto|].
    intros _. split; [by apply Hfour|].
    rewrite !elem_of_cons, elem_of_nil in Htbl.
    destruct Htbl as [->|[->|[->|[->|[]]]]]; by eexists "_"%char, _.
  - rewrite (Hother tbl Htbl). split; [tauto|].
    rewrite !elem_of_cons, elem_of_nil in Htbl. tauto.
Qed.

End RunCatalog.

Lemma run_touches_the_four_tables_only_witness :
  ∃ reports counts cat',
    run 0 1 2 3 4
      (mkRaw three_stores (mkDF Schemas.products_schema [])
         (mkDF Schemas.customers_schema []) two_days_of_sales) ∅
    = Some (reports, counts, cat')
    ∧ (∀ tbl, tbl ∈ ["bronze_stores"; "bronze_products"; "bronze_customers";
                     "bronze_sales"] → is_Some (cat' !! tbl))
    ∧ (∀ other, other ∉ ["bronze_stores"; "bronze_products";
                         "bronze_customers"; "bronze_sales"] →
                cat' !! other = (∅ : catalog) !! other)
    ∧ bronze_tables cat'
      = {[ "bronze_stores"; "bronze_products"; "bronze_customers";
           "bronze_sales" ]} ∪ bronze_tables ∅.
Proof.
  eexists _, _, _. split; [vm_compute; reflexivity|].
  eapply (run_touches_the_four_tables_only 0 1 2 3 4
            (mkRaw three_stores (mkDF Schemas.products_schema [])
               (mkDF Schemas.customers_schema []) two_days_of_sales) ∅).
  vm_compute. reflexivity.
Defined.

(** * Properties of the data generator *)

Import Generator GeneratorNotions GeneratorSamples.

(** ** Identifiers *)

Section Identifiers.

Lemma decimal_value_zeros (k : nat) (s : string) :
  decimal_value 0 (zeros k +:+ s) = decimal_value 0 s.
Proof. induction k as [|k IH]; [done|]. simpl. exact IH. Qed.

Lemma digit_of_char (x : N) :
  (x < 10)%N → N.of_nat (nat_of_ascii (pretty_N_char x) - 48) = x.
Proof.
  intros Hx.
  assert (x = 0 ∨ x = 1 ∨ x = 2 ∨ x = 3 ∨ x = 4 ∨ x = 5 ∨ x = 6 ∨ x = 7
          ∨ x = 8 ∨ x = 9)%N as Hcases by lia.
  repeat (destruct Hcases as [->|Hcases]; [done|]). by subst.
Qed.

Lemma decimal_value_go (x : N) (s : string) :
  decimal_value 0 (pretty_N_go x s) = decimal_value x s.
Proof.
  revert s. induction (N.lt_wf_0 x) as [x _ IH]. intros s.
  destruct (decide (x = 0%N)) as [->|Hx]; [by rewrite pretty_N_go_0|].
  rewrite pretty_N_go_step by lia.
  rewrite IH by (apply N.div_lt; lia). simpl.
  rewrite digit_of_char by (apply N.mod_lt; lia).
  f_equal. rewrite (N.div_mod x 10) at 3 by done. lia.
Qed.

(** Reading back the digits of a number gives the number. *)
Lemma decimal_value_str (n : nat) : decimal_value 0 (str n) = N.of_nat n.
Proof.
  unfold str, pretty, pretty_nat, pretty, pretty_N.
  case_decide as Hn; [by rewrite Hn|]. by rewrite decimal_value_go.
Qed.

Lemma zfill_str_inj (width n m : nat) :
  zfill width (str n) = zfill width (str m) → n = m.
Proof.
  intros Heq. apply (f_equal (decimal_value 0)) in Heq.
  unfold zfill in Heq.
  rewrite !decimal_value_zeros, !decimal_value_str in Heq. lia.
Qed.

(** No two turns of a loop of the generator give the same identifier,
    however many turns there are: the identifiers of stores, products,
    customers and transactions are keys of their files. *)
Theorem identifiers_are_unique :
  (∀ i j, store_id i = store_id j → i = j)
  ∧ (∀ i j, product_id i = product_id j → i = j)
  ∧ (∀ i j, customer_id i = customer_id j → i = j)
  ∧ (∀ n m, transaction_id_of n = transaction_id_of m → n = m).
Proof.
  unfold store_id, product_id, customer_id, transaction_id_of.
  split_and!; intros i j Heq; apply (inj _) in Heq;
    apply zfill_str_inj in Heq; lia.
Qed.

End Identifiers.

(** ** Draws *)

Section Draws.

Context {A : Type}.

Lemma choice_elem (seq : list A) (u : nat) (x : A) :
  choice seq u = Some x → x ∈ seq.
Proof. unfold choice. intros Hx. apply list_elem_of_lookup. eauto. Qed.

Lemma choice_is_Some (seq : list A) (u : nat) :
  seq ≠ [] → is_Some (choice seq u).
Proof.
  intros Hne. unfold choice. apply lookup_lt_is_Some.
  apply Nat.mod_upper_bound. by destruct seq.
Qed.

Lemma choice_None (seq : list A) (u : nat) :
  choice seq u = None ↔ seq = [].
Proof.
  split.
  - intros Hnone. destruct seq as [|x seq]; [done|].
    destruct (choice_is_Some (x :: seq) u) as [y Hy]; congruence.
  - by intros ->.
Qed.

Lemma randint_bounds (a b : Z) (u : nat) :
  a ≤ b → a ≤ randint a b u ≤ b.
Proof.
  intros Hab. unfold randint.
  pose proof (Z.mod_pos_bound (Z.of_nat u) (b - a + 1)). lia.
Qed.

End Draws.

(** ** Customers and stores *)

Section People.

(** A turn of the customers loop never fails.  The customer it gives is
    between 18 and 75 years old, whatever age was drawn, and the segment
    goes with the age: young adults are at most 24, prime shoppers 25 to
    39, mature customers 40 to 59 and senior shoppers 60 or more. *)
Theorem customer_age_and_segment (i : nat) (draws : CustomerDraws) :
  ∃ c,
    customer i draws = Some c
    ∧ cu_customer_id c = customer_id i
    ∧ 18 ≤ cu_age c ≤ 75
    ∧ (cu_customer_segment c = "Young Adults" ↔ cu_age c ≤ 24)
    ∧ (cu_customer_segment c = "Prime Shoppers" ↔ 25 ≤ cu_age c ≤ 39)
    ∧ (cu_customer_segment c = "Mature Customers" ↔ 40 ≤ cu_age c ≤ 59)
    ∧ (cu_customer_segment c = "Senior Shoppers" ↔ 60 ≤ cu_age c).
Proof.
  unfold customer.
  destruct (choice_is_Some first_names (cd_first_name draws)) as [? ->];
    [done|].
  destruct (choice_is_Some last_names (cd_last_name draws)) as [? ->];
    [done|].
  destruct (choice_is_Some ["M"; "F"; "Other"] (cd_gender draws)) as [? ->];
    [done|].
  destruct (choice_is_Some store_cities (cd_city draws)) as [? ->]; [done|].
  destruct (choice_is_Some [true; false] (cd_loyalty_member draws))
    as [? ->]; [done|].
  destruct (choice_is_Some [true; true; true; false] (cd_is_active draws))
    as [? ->]; [done|].
  eexists. split; [reflexivity|]. cbn [cu_customer_id cu_age cu_customer_segment].
  split; [done|]. split; [unfold clamp_age; lia|].
  unfold customer_segment, clamp_age.
  repeat (case_match; try rewrite Z.ltb_lt in *; try rewrite Z.ltb_ge in * );
    split_and!; split; (done || lia).
Qed.

(** A turn of the stores loop never fails, and the surface of the store
    it gives goes with the size category: 100 to 200 square metres for a
    small store, 201 to 400 for a medium one, 401 to 600 for a large one
    and 601 to 1000 for an extra large one. *)
Theorem store_surface_matches_category (i : nat) (draws : StoreDraws) :
  ∃ s,
    store i draws = Some s
    ∧ st_store_id s = store_id i
    ∧ ((st_size_category s = "Small" ∧ 100 ≤ st_size_sqm s ≤ 200)
       ∨ (st_size_category s = "Medium" ∧ 201 ≤ st_size_sqm s ≤ 400)
       ∨ (st_size_category s = "Large" ∧ 401 ≤ st_size_sqm s ≤ 600)
       ∨ (st_size_category s = "Extra Large"
          ∧ 601 ≤ st_size_sqm s ≤ 1000)).
Proof.
  unfold store.
  destruct (choice_is_Some store_cities (sd_city draws)) as [? ->]; [done|].
  destruct (choice_is_Some store_types (sd_store_type draws)) as [? ->];
    [done|].
  destruct (choice_is_Some store_sizes (sd_size draws)) as [size Hsize];
    [done|].
  rewrite Hsize. apply choice_elem in Hsize.
  destruct (choice_is_Some [true; true; true; false] (sd_is_active draws))
    as [? ->]; [done|].
  pose proof (randint_bounds 100 200 (sd_small draws)).
  pose proof (randint_bounds 201 400 (sd_medium draws)).
  pose proof (randint_bounds 401 600 (sd_large draws)).
  pose proof (randint_bounds 601 1000 (sd_extra_large draws)).
  unfold store_sizes in Hsize. rewrite !elem_of_cons, elem_of_nil in Hsize.
  destruct Hsize as [->|[->|[->|[->|[]]]]];
    (eexists; split; [reflexivity|]; split; [done|];
     cbn [st_size_category st_size_sqm]; auto 10 with lia).
Qed.

End People.

(** ** Sales *)

Section SalesFacts.

Context (round_2 : float → float).
Context (df_stores : list Store) (df_products : list Product)
  (df_customers : list Customer).

Lemma price_of_active (product_id : string) :
  product_id ∈ active_products df_products →
  is_Some (price_of df_products product_id).
Proof.
  unfold active_products, price_of.
  intros (p & -> & [_ Hp]%list_elem_of_filter)%list_elem_of_fmap.
  destruct (filter (λ q, pr_product_id q = pr_product_id p) df_products)
    as [|q l] eqn:Hfilter; [|by eexists].
  by apply (filter_nil_not_elem_of _ _ p) in Hfilter.
Qed.

Lemma price_of_unique (p : Product) :
  NoDup (pr_product_id <$> df_products) → p ∈ df_products →
  price_of df_products (pr_product_id p) = Some (pr_price p).
Proof.
  unfold price_of. intros Hnd Hp.
  destruct (filter (λ q, pr_product_id q = pr_product_id p) df_products)
    as [|q l] eqn:Hfilter.
  { by apply (filter_nil_not_elem_of _ _ p) in Hfilter. }
  assert (q ∈ filter (λ q, pr_product_id q = pr_product_id p) df_products)
    as [Hid Hq]%list_elem_of_filter by (rewrite Hfilter; left).
  simpl. do 2 f_equal.
  apply list_elem_of_lookup in Hp as [i Hi], Hq as [j Hj].
  assert (i = j) as ->; [|congruence].
  apply (NoDup_lookup _ _ _ (pr_product_id p) Hnd);
    rewrite list_lookup_fmap; [by rewrite Hi|by rewrite Hj; simpl; f_equal].
Qed.

(** What a turn of the sales loop that succeeds has drawn. *)
Lemma sale_inv (transaction_id : nat) (draws : SaleDraws) (s : Sale) :
  sale round_2 df_stores df_products df_customers transaction_id draws
  = Some s →
  ∃ day customer,
    day = start_date + randint 0 (end_date - start_date) (wd_day draws)
    ∧ (if 5 <=? weekday day
       then choice [1; 2; 3; 4] (wd_quantity draws)
       else choice [1; 2; 3] (wd_quantity draws)) = Some (sl_quantity s)
    ∧ choice (active_stores df_stores) (wd_store draws) = Some (sl_store_id s)
    ∧ choice (active_products df_products) (wd_product draws)
      = Some (sl_product_id s)
    ∧ (if PrimFloat.ltb 0x1.999999999999ap-3 (wd_anonymous draws)
       then Some <$> choice (active_customers df_customers) (wd_customer draws)
       else Some None) = Some customer
    ∧ sl_customer_id s
      = match customer with
        | Some c => if decide (c = "") then "ANONYMOUS" else c
        | None => "ANONYMOUS"
        end
    ∧ price_of df_products (sl_product_id s) = Some (sl_unit_price s)
    ∧ (if bool_decide (month day ∈ [1; 7])
       then choice [0; 10; 20; 30; 50] (wd_discount draws)
       else choice [0; 0; 0; 10] (wd_discount draws))
      = Some (sl_discount_percent s)
    ∧ sl_transaction_id s = transaction_id_of transaction_id
    ∧ sl_transaction_date s = strftime day.
Proof.
  unfold sale. intros Hsale.
  apply bind_Some in Hsale as (quantity & Hquantity & Hsale).
  apply bind_Some in Hsale as (store_id & Hstore & Hsale).
  apply bind_Some in Hsale as (product_id & Hproduct & Hsale).
  apply bind_Some in Hsale as (customer & Hcustomer & Hsale).
  apply bind_Some in Hsale as (price & Hprice & Hsale).
  apply bind_Some in Hsale as (percent & Hpercent & Hsale).
  apply bind_Some in Hsale as (payment & _ & Hsale).
  apply bind_Some in Hsale as (channel & _ & Hsale).
  injection Hsale as <-. simpl. by eexists _, customer.
Qed.

(** A sale refers to what exists and is active.  Its store is an active
    store of the stores table and its product an active product of the
    products table; its customer is [ANONYMOUS] or an active customer of
    the customers table, and never empty; and when no two products have
    the same identifier, its unit price is the price of its product. *)
Theorem sale_refers_to_active_rows
    (transaction_id : nat) (draws : SaleDraws) (s : Sale) :
  NoDup (pr_product_id <$> df_products) →
  sale round_2 df_stores df_products df_customers transaction_id draws
  = Some s →
  (∃ st, st ∈ df_stores ∧ st_is_active st = true
         ∧ st_store_id st = sl_store_id s)
  ∧ (∃ p, p ∈ df_products ∧ pr_is_active p = true
          ∧ pr_product_id p = sl_product_id s
          ∧ pr_price p = sl_unit_price s)
  ∧ (sl_customer_id s = "ANONYMOUS"
     ∨ ∃ c, c ∈ df_customers ∧ cu_is_active c = true
            ∧ cu_customer_id c = sl_customer_id s)
  ∧ sl_customer_id s ≠ "".
Proof.
  intros Hnd (day & customer & _ & _ & Hstore & Hproduct & Hcustomer & Hid
              & Hprice & _)%sale_inv.
  split_and!.
  - apply choice_elem, list_elem_of_fmap in Hstore
      as (st & -> & [? ?]%list_elem_of_filter). eauto.
  - apply choice_elem, list_elem_of_fmap in Hproduct
      as (p & Hp & [? ?]%list_elem_of_filter).
    exists p. split_and!; [done..|].
    rewrite Hp, (price_of_unique p Hnd) in Hprice by done. congruence.
  - rewrite Hid. destruct customer as [c|]; [|by left].
    case_decide; [by left|]. right.
    destruct (PrimFloat.ltb _ _); [|done].
    apply fmap_Some in Hcustomer as (c' & Hc & [= ->]).
    apply choice_elem, list_elem_of_fmap in Hc
      as (cu & -> & [? ?]%list_elem_of_filter). eauto.
  - rewrite Hid. destruct customer as [c|]; [|done]. by case_decide.
Qed.

(** A turn of the sales loop fails exactly when there is no active store
    or no active product to pick, or when a customer is to be picked,
    the draw being above 0.2, and there is no active customer. *)
Theorem sale_fails_without_active_rows
    (transaction_id : nat) (draws : SaleDraws) :
  sale round_2 df_stores df_products df_customers transaction_id draws = None
  ↔ active_stores df_stores = []
    ∨ active_products df_products = []
    ∨ (PrimFloat.ltb 0x1.999999999999ap-3 (wd_anonymous draws) = true
       ∧ active_customers df_customers = []).
Proof.
  unfold sale.
  set (day := start_date + randint 0 (end_date - start_date) (wd_day draws)).
  assert (∃ q, (if 5 <=? weekday day
                then choice [1; 2; 3; 4] (wd_quantity draws)
                else choice [1; 2; 3] (wd_quantity draws)) = Some q)
    as [q ->].
  { destruct (5 <=? weekday day); by apply choice_is_Some. }
  assert (∃ pct, (if bool_decide (month day ∈ [1; 7])
                  then choice [0; 10; 20; 30; 50] (wd_discount draws)
                  else choice [0; 0; 0; 10] (wd_discount draws)) = Some pct)
    as [pct Hpct].
  { destruct (bool_decide _); by apply choice_is_Some. }
  destruct (choice_is_Some
              ["Cash"; "Credit Card"; "Debit Card"; "PayPal"; "Gift Card"]
              (wd_payment draws)) as [pay Hpay]; [done|].
  destruct (choice_is_Some ["In-Store"; "In-Store"; "In-Store"; "Online"]
              (wd_channel draws)) as [ch Hch]; [done|].
  cbn [mbind option_bind].
  destruct (choice (active_stores df_stores) (wd_store draws))
    as [st|] eqn:Hstore; cbn [mbind option_bind].
  2:{ apply choice_None in Hstore. tauto. }
  destruct (choice (active_products df_products) (wd_product draws))
    as [pr|] eqn:Hproduct; cbn [mbind option_bind].
  2:{ apply choice_None in Hproduct. tauto. }
  destruct (price_of_active pr (choice_elem _ _ _ Hproduct)) as [price Hprice].
  assert (active_stores df_stores ≠ []) as Hstores.
  { intros Hnil. rewrite Hnil in Hstore. by destruct (wd_store draws). }
  assert (active_products df_products ≠ []) as Hproducts.
  { intros Hnil. rewrite Hnil in Hproduct. by destruct (wd_product draws). }
  destruct (PrimFloat.ltb _ (wd_anonymous draws)) eqn:Hdraw.
  - destruct (choice (active_customers df_customers) (wd_customer draws))
      as [cu|] eqn:Hcustomer; cbn [mbind option_bind fmap option_fmap option_map].
    + rewrite Hprice. cbn [mbind option_bind]. rewrite Hpct.
      cbn [mbind option_bind]. rewrite Hpay. cbn [mbind option_bind].
      rewrite Hch. cbn [mbind option_bind].
      split; [done|]. intros [?|[?|[_ Hnil]]]; [done..|].
      rewrite Hnil in Hcustomer. by destruct (wd_customer draws).
    + apply choice_None in Hcustomer. tauto.
  - cbn [mbind option_bind]. rewrite Hprice. cbn [mbind option_bind].
    rewrite Hpct. cbn [mbind option_bind]. rewrite Hpay.
    cbn [mbind option_bind]. rewrite Hch. cbn [mbind option_bind].
    split; [done|]. intros [?|[?|[? _]]]; done.
Qed.

(** The rules of a sale.  Its date is a day from 2023-01-01 to
    2024-12-31; from one to four pairs are sold, four on a Saturday or a
    Sunday only; and the discount is 0, 10, 20, 30 or 50 percent, above 10
    in January and in July only. *)
Theorem sale_follows_the_calendar
    (transaction_id : nat) (draws : SaleDraws) (s : Sale) :
  sale round_2 df_stores df_products df_customers transaction_id draws
  = Some s →
  ∃ day,
    datetime 2023 1 1 ≤ day ≤ datetime 2024 12 31
    ∧ sl_transaction_date s = strftime day
    ∧ 1 ≤ sl_quantity s ≤ 4
    ∧ (sl_quantity s = 4 → weekday day = 5 ∨ weekday day = 6)
    ∧ sl_discount_percent s ∈ [0; 10; 20; 30; 50]
    ∧ (10 < sl_discount_percent s → month day = 1 ∨ month day = 7).
Proof.
  intros (day & customer & Hday & Hquantity & _ & _ & _ & _ & _ & Hpercent
          & _ & Hdate)%sale_inv.
  exists day. split.
  { pose proof (randint_bounds 0 (end_date - start_date) (wd_day draws)) as Hb.
    rewrite Hday. unfold start_date, end_date in *.
    assert (datetime 2023 1 1 ≤ datetime 2024 12 31) by done. lia. }
  split; [done|].
  assert (0 ≤ weekday day < 7) as Hweek by (apply Z.mod_pos_bound; lia).
  split.
  { destruct (5 <=? weekday day); apply choice_elem in Hquantity;
      rewrite !elem_of_cons, elem_of_nil in Hquantity; lia. }
  split.
  { intros H4. destruct (5 <=? weekday day) eqn:Hw.
    - apply Z.leb_le in Hw. lia.
    - apply choice_elem in Hquantity.
      rewrite !elem_of_cons, elem_of_nil in Hquantity. lia. }
  split.
  { destruct (bool_decide _); apply choice_elem in Hpercent;
      rewrite !elem_of_cons, elem_of_nil in Hpercent;
      rewrite !elem_of_cons, elem_of_nil; lia. }
  intros Hhigh. case_bool_decide as Hmonth.
  - rewrite !elem_of_cons, elem_of_nil in Hmonth. tauto.
  - apply choice_elem in Hpercent.
    rewrite !elem_of_cons, elem_of_nil in Hpercent. lia.
Qed.

(** The transaction identifiers of a generated file are those of 1, 2,
    3 and so on, in order, and no two sales have the same identifier;
    there are as many sales as turns. *)
Theorem generated_sales_have_distinct_ids
    (draws : list SaleDraws) (sales : list Sale) :
  generate_sales round_2 df_stores df_products df_customers draws
  = Some sales →
  length sales = length draws
  ∧ (∀ k s, sales !! k = Some s →
            sl_transaction_id s = transaction_id_of (S k))
  ∧ NoDup (sl_transaction_id <$> sales).
Proof.
  unfold generate_sales. intros Hall%mapM_Some_1.
  assert (∀ k s, sales !! k = Some s →
                 sl_transaction_id s = transaction_id_of (S k)) as Hids.
  { intros k s Hk.
    destruct (Forall2_lookup_r _ _ _ k s Hall Hk) as ([n d] & Hd & Hsale).
    apply list_lookup_imap_Some in Hd as (d' & _ & [= -> ->]).
    apply sale_inv in Hsale as (_ & _ & _ & _ & _ & _ & _ & _ & _ & _ & ? & _).
    done. }
  split_and!; [|done|].
  - apply Forall2_length in Hall. by rewrite length_imap in Hall.
  - apply NoDup_alt. intros i j x Hi Hj.
    rewrite list_lookup_fmap in Hi, Hj.
    destruct (sales !! i) as [si|] eqn:Hsi; [|done].
    destruct (sales !! j) as [sj|] eqn:Hsj; [|done].
    simpl in Hi, Hj. rewrite (Hids i si Hsi) in Hi.
    rewrite (Hids j sj Hsj) in Hj.
    assert (transaction_id_of (S i) = transaction_id_of (S j)) as Heq
      by congruence.
    unfold transaction_id_of in Heq. apply (inj _) in Heq.
    apply zfill_str_inj in Heq. lia.
Qed.

End SalesFacts.

Lemma sale_refers_to_active_rows_witness :
  ∃ s,
    sale Pandas.round2 two_stores two_products two_customers 1 new_year_draws
    = Some s
    ∧ (∃ st, st ∈ two_stores ∧ st_is_active st = true
             ∧ st_store_id st = sl_store_id s)
    ∧ (∃ p, p ∈ two_products ∧ pr_is_active p = true
            ∧ pr_product_id p = sl_product_id s
            ∧ pr_price p = sl_unit_price s)
    ∧ (sl_customer_id s = "ANONYMOUS"
       ∨ ∃ c, c ∈ two_customers ∧ cu_is_active c = true
              ∧ cu_customer_id c = sl_customer_id s)
    ∧ sl_customer_id s ≠ "".
Proof.
  eexists. split; [vm_compute; reflexivity|].
  apply (sale_refers_to_active_rows Pandas.round2 two_stores two_products
           two_customers 1 new_year_draws).
  - apply (bool_decide_unpack _). vm_compute. reflexivity.
  - vm_compute. reflexivity.
Defined.

Lemma sale_follows_the_calendar_witness :
  ∃ s,
    sale Pandas.round2 two_stores two_products two_customers 1 new_year_draws
    = Some s
    ∧ ∃ day,
        datetime 2023 1 1 ≤ day ≤ datetime 2024 12 31
        ∧ sl_transaction_date s = strftime day
        ∧ 1 ≤ sl_quantity s ≤ 4
        ∧ (sl_quantity s = 4 → weekday day = 5 ∨ weekday day = 6)
        ∧ sl_discount_percent s ∈ [0; 10; 20; 30; 50]
        ∧ (10 < sl_discount_percent s → month day = 1 ∨ month day = 7).
Proof.
  eexists. split; [vm_compute; reflexivity|].
  apply (sale_follows_the_calendar Pandas.round2 two_stores two_products
           two_customers 1 new_year_draws).
  vm_compute. reflexivity.
Defined.

Lemma generated_sales_have_distinct_ids_witness :
  ∃ sales,
    generate_sales Pandas.round2 two_stores two_products two_customers
      [new_year_draws; new_year_draws; new_year_draws] = Some sales
    ∧ length sales = length [new_year_draws; new_year_draws; new_year_draws]
    ∧ (∀ k s, sales !! k = Some s →
              sl_transaction_id s = transaction_id_of (S k))
    ∧ NoDup (sl_transaction_id <$> sales).
Proof.
  eexists. split; [vm_compute; reflexivity|].
  apply (generated_sales_have_distinct_ids Pandas.round2 two_stores
           two_products two_customers).
  vm_compute. reflexivity.
Defined.

(** The sale of the sample draws: on Sunday 2023-01-01 four pairs of the
    one active product are sold in the one active store to the one active
    customer, half the price off. *)
Example new_year_sale :
  ∃ s,
    sale Pandas.round2 two_stores two_products two_customers 1 new_year_draws
    = Some s
    ∧ sl_transaction_id s = "TXN00000001"
    ∧ sl_transaction_date s = "2023-01-01"
    ∧ sl_transaction_time s = "09:05:00"
    ∧ sl_store_id s = "ST0002"
    ∧ sl_product_id s = "PRD00001"
    ∧ sl_customer_id s = "CUST000002"
    ∧ sl_quantity s = 4
    ∧ sl_discount_percent s = 50
    ∧ sl_unit_price s = 25%float
    ∧ sl_discount_amount s = 50%float
    ∧ sl_total_amount s = 50%float.
Proof. eexists. split; [vm_compute; reflexivity|]. split_and!; reflexivity. Qed.

(** Without an active store the turn fails, and with the draw for the
    customer at most 0.2 the sale is anonymous. *)
Example sale_edge_cases :
  sale Pandas.round2 [] two_products two_customers 1 new_year_draws = None
  ∧ sl_customer_id
      <$> sale Pandas.round2 two_stores two_products [] 1 anonymous_draws
    = Some "ANONYMOUS".
Proof. split; vm_compute; reflexivity. Qed.

(** The dates that the generator writes are read back by the converter
    of the samples as the days they stand for, for every day of the two
    years of sales. *)
Example sale_dates_read_back :
  forallb
    (λ k, bool_decide
            (Samples.date (strftime (start_date + Z.of_nat k))
             = Some (start_date + Z.of_nat k)))
    (seq 0 731) = true.
Proof. vm_compute. reflexivity. Qed.
